(** * Solar-Vision: the client-side forecast flow, verified against its source

    The development embeds the TypeScript sources of the React client

      - [src/pages/Index.tsx] (kept as [src/unnamed/part_002]): module
        [Index], the location table, the name-to-coordinate resolver and
        the page's submit handler;
      - [src/components/ForecastForm.tsx]: module [ForecastForm], the
        submit guard of the form;
      - [src/components/ForecastResults.tsx] (kept as
        [src/unnamed/part_000]): module [ForecastResults], the effect that
        queries the prediction endpoint and the values derived from its
        answer;

    over a model of the JavaScript values they manipulate (module [JS]):
    Numbers as IEEE 754 binary64 values, strings as sequences of code
    units, JSON values, thrown values and settled promises.  The
    forecast-to-prediction pipeline of the Flask backend, whose source is
    not at hand, is modelled as the specification describes it (module
    [Backend]).

    Part I holds the definitions, Part II the properties. *)

From Stdlib Require Import ZArith List Bool Lia QArith.
From Stdlib Require Import Strings.Ascii Strings.String Numbers.DecimalString.
From Stdlib Require Import Floats.SpecFloat.
Import ListNotations.

Local Open Scope string_scope.
Local Open Scope Z_scope.

(* ================================================================== *)
(** * Part I: definitions *)
(* ================================================================== *)

(** ** JavaScript values *)

Module JS.

(** *** Numbers

    A JavaScript Number is an IEEE 754 binary64 value.  [spec_float] is the
    Standard Library's executable specification of binary floating point,
    taken here at precision 53 and maximal exponent 1024.  The Numbers are
    its values in canonical form ([valid_binary]); the statements of
    Part II hold for every value of the type. *)

Definition prec : Z := 53.
Definition emax : Z := 1024.

Definition number : Type := spec_float.

Definition NaN : number := S754_nan.
Definition Infinity : number := S754_infinity false.

(** The Number nearest to an integer. *)
Definition ofZ (z : Z) : number := binary_normalize prec emax z 0 false.

(** The Number denoted by the decimal literal [m] x 10^-[k].  Both the
    numerator and the power of ten are exactly representable for the
    literals of this program, so the IEEE division rounds the literal
    correctly. *)
Definition dec (m : Z) (k : Z) : number :=
  SFdiv prec emax (ofZ m) (ofZ (10 ^ k)).

Definition div (x y : number) : number := SFdiv prec emax x y.
Definition mul (x y : number) : number := SFmul prec emax x y.

(** Relational operators [<], [<=], [>]: false as soon as one operand is
    NaN. *)
Definition lt (x y : number) : bool := SFltb x y.
Definition le (x y : number) : bool := SFleb x y.
Definition gt (x y : number) : bool := SFltb y x.

Definition isNaN (x : number) : bool :=
  match x with S754_nan => true | _ => false end.

Definition isFinite (x : number) : bool :=
  match x with S754_zero _ | S754_finite _ _ _ => true | _ => false end.

(** ToBoolean on a Number: +0, -0 and NaN are the falsy ones. *)
Definition truthy (x : number) : bool :=
  match x with S754_zero _ | S754_nan => false | _ => true end.

(** [Math.round]: the integer nearest to [x], ties towards +Infinity; the
    sign of a zero result is the sign of [x].  A finite [x] with a
    non-negative exponent is integral already.  Otherwise
    [x = sm / 2^k] with [k = -e > 0], and
    [floor (x + 1/2) = floor ((2 sm + 2^k) / 2^(k+1))]. *)
Definition MathRound (x : number) : number :=
  match x with
  | S754_finite s m e =>
      if 0 <=? e then x
      else
        let k := - e in
        let sm := cond_Zopp s (Zpos m) in
        match (2 * sm + 2 ^ k) / 2 ^ (k + 1) with
        | Z0 => S754_zero s
        | n => ofZ n
        end
  | _ => x
  end.

(** [Math.min] and [Math.max] of two arguments: NaN if either is NaN, and
    -0 is smaller than +0. *)
Definition MathMin (a b : number) : number :=
  match SFcompare a b with
  | None => NaN
  | Some Lt => a
  | Some Gt => b
  | Some Eq =>
      match a, b with
      | S754_zero sa, S754_zero sb => S754_zero (sa || sb)
      | _, _ => a
      end
  end.

Definition MathMax (a b : number) : number :=
  match SFcompare a b with
  | None => NaN
  | Some Lt => b
  | Some Gt => a
  | Some Eq =>
      match a, b with
      | S754_zero sa, S754_zero sb => S754_zero (sa && sb)
      | _, _ => a
      end
  end.

(** *** Strings

    A JavaScript string is a sequence of UTF-16 code units.  The strings of
    this development are those whose code units lie in U+0000..U+00FF; one
    [ascii] stands for one code unit. *)

Definition codeUnit (c : ascii) : N := N_of_ascii c.

(** WhiteSpace and LineTerminator code points below U+0100: TAB, LF, VT,
    FF, CR, SP and NBSP. *)
Definition isWhiteSpace (c : ascii) : bool :=
  let n := codeUnit c in
  (((9 <=? n) && (n <=? 13)) || (n =? 32) || (n =? 160))%N.

Fixpoint trimStart (s : string) : string :=
  match s with
  | EmptyString => EmptyString
  | String c s' => if isWhiteSpace c then trimStart s' else s
  end.

Fixpoint trimEnd (s : string) : string :=
  match s with
  | EmptyString => EmptyString
  | String c s' =>
      match trimEnd s' with
      | EmptyString => if isWhiteSpace c then EmptyString else String c EmptyString
      | t => String c t
      end
  end.

(** [String.prototype.trim] *)
Definition trim (s : string) : string := trimEnd (trimStart s).

(** The Unicode lower-case mapping below U+0100: A..Z and the capital
    letters U+00C0..U+00DE (the multiplication sign U+00D7 apart) move up
    by 32. *)
Definition lowerCodeUnit (c : ascii) : ascii :=
  let n := codeUnit c in
  if (((65 <=? n) && (n <=? 90))
      || ((192 <=? n) && (n <=? 222) && negb (n =? 215)))%N
  then ascii_of_N (n + 32) else c.

(** [String.prototype.toLowerCase] *)
Fixpoint toLowerCase (s : string) : string :=
  match s with
  | EmptyString => EmptyString
  | String c s' => String (lowerCodeUnit c) (toLowerCase s')
  end.

(** [String.prototype.includes]: [key] occurs in [s] at some position. *)
Fixpoint includes (s key : string) : bool :=
  String.prefix key s
  || match s with
     | EmptyString => false
     | String _ s' => includes s' key
     end.

(** Template-literal conversion of a non-negative integer. *)
Definition decimal (n : N) : string := NilZero.string_of_uint (N.to_uint n).

(** *** Thrown values and promise results *)

(** What a [catch] clause can tell about a thrown value: whether it is an
    instance of [Error], and then its message. *)
Inductive Thrown : Type :=
| ErrorInstance (message : string)
| OtherThrown.

(** A settled promise. *)
Inductive Settled (A : Type) : Type :=
| Fulfilled (a : A)
| Rejected (t : Thrown).
Arguments Fulfilled {A} a.
Arguments Rejected {A} t.

(** *** JSON values, as [JSON.parse] yields and [JSON.stringify] writes
    them.  An object lists its own properties in creation order. *)
#[local] Set Warnings "-register-all".
Inductive Json : Type :=
| JNull
| JBool (b : bool)
| JNumber (n : number)
| JString (s : string)
| JArray (items : list Json)
| JObject (props : list (string * Json)).

(** Own-property lookup in a list of properties. *)
Fixpoint assoc {A : Type} (k : string) (props : list (string * A)) : option A :=
  match props with
  | [] => None
  | (k', v) :: rest => if String.eqb k k' then Some v else assoc k rest
  end.

(** ToBoolean on a parsed JSON value. *)
Definition jsonTruthy (j : Json) : bool :=
  match j with
  | JNull => false
  | JBool b => b
  | JNumber n => truthy n
  | JString s => negb (String.eqb s "")
  | JArray _ | JObject _ => true
  end.

(** [j.name] for a name that no prototype defines: the own property of an
    object, [None] (undefined) on arrays and primitives. *)
Definition getProperty (j : Json) (name : string) : option Json :=
  match j with
  | JObject props => assoc name props
  | _ => None
  end.

(** [JSON.stringify] on a flat object whose property values are Numbers or
    undefined, up to the JSON text's concrete syntax: a property whose value
    is undefined is left out, a Number that is not finite is written
    [null], and both zeros are written [0]. *)
Definition SerializeNumber (n : number) : Json :=
  match n with
  | S754_zero _ => JNumber (S754_zero false)
  | S754_finite _ _ _ => JNumber n
  | _ => JNull
  end.

Definition SerializeProperty (p : string * option number) : list (string * Json) :=
  match snd p with
  | None => []
  | Some n => [(fst p, SerializeNumber n)]
  end.

Definition JSON_stringify (o : list (string * option number)) : Json :=
  JObject (flat_map SerializeProperty o).

(** *** Further arithmetic: [x - y], [x + y] and [x >= y]. *)
Definition sub (x y : number) : number := SFsub prec emax x y.
Definition ge (x y : number) : bool := SFleb y x.

(** [array.map((x, index) => f x index)] *)
Fixpoint mapIndexed {A B : Type} (f : A -> nat -> B) (index : nat) (xs : list A)
  : list B :=
  match xs with
  | [] => []
  | x :: rest => f x index :: mapIndexed f (S index) rest
  end.

End JS.

(** ** src/components/ForecastForm.tsx *)

Module ForecastForm.
Import JS.

Record FormInputData : Type := {
  location : string;
  acres : number;
  consumption : number
}.

(** The initial [useState] value. *)
Definition initialFormData : FormInputData :=
  {| location := "Pune"; acres := ofZ 0; consumption := ofZ 0 |}.

(** What a submit event makes the component do, in order. *)
Inductive Action : Type :=
| PreventDefault
| OnSubmit (data : FormInputData)
| Alert (message : string).

Definition handleSubmit (formData : FormInputData) : list Action :=
  PreventDefault ::
  (if gt (acres formData) (ofZ 0)
      && gt (consumption formData) (ofZ 0)
      && negb (String.eqb (trim (location formData)) "")
   then [OnSubmit formData]
   else [Alert "Please fill in all fields."]).

(** The [disabled] attribute of the submit button. *)
Definition submitDisabled (formData : FormInputData) : bool :=
  negb (gt (acres formData) (ofZ 0)
        && gt (consumption formData) (ofZ 0)
        && negb (String.eqb (trim (location formData)) "")).

(** A click on the submit button.  A disabled button fires no submit
    event.  An enabled one makes the browser validate the inputs against
    their [required], [min] and [step] attributes (the form has no
    [noValidate]); the outcome of that validation is the browser's and is
    taken as given: the submit event, and with it [handleSubmit], fires
    only when the constraints are satisfied. *)
Definition clickSubmit (constraintsSatisfied : bool) (formData : FormInputData)
  : list Action :=
  if submitDisabled formData then []
  else if constraintsSatisfied then handleSubmit formData
  else [].

(** [keyof FormInputData] *)
Inductive Field : Type := locationField | acresField | consumptionField.

(** [{ ...prev, [field]: v }] for the two numeric fields. *)
Definition setNumber (field : Field) (v : number) (prev : FormInputData)
  : FormInputData :=
  match field with
  | acresField =>
      {| location := location prev; acres := v; consumption := consumption prev |}
  | consumptionField =>
      {| location := location prev; acres := acres prev; consumption := v |}
  | locationField => prev
  end.

(** What an input element reports: the field it belongs to and its raw
    text, [e.target.value]. *)
Inductive InputEvent : Type :=
| LocationInput (raw : string)
| AcresInput (raw : string)
| ConsumptionInput (raw : string).

Section InputChange.

(** The host's number parsers and number printer, taken as they come:
    [parseFloat(s)], [parseInt(s, 10)], [parseInt(s)] and the conversion of
    a Number to a string. *)
Variable parseFloat : string -> number.
Variable parseInt10 : string -> number.
Variable parseInt : string -> number.
Variable NumberToString : number -> string.

(** [handleInputChange(field, value)], as the update of the form data. *)
Definition handleInputChange (field : Field) (value : string) (prev : FormInputData)
  : FormInputData :=
  match field with
  | locationField =>
      {| location := value; acres := acres prev; consumption := consumption prev |}
  | _ =>
      let numberValue :=
        match field with
        | acresField => parseFloat value
        | _ => parseInt10 value
        end in
      setNumber field (if isNaN numberValue then ofZ 0 else numberValue) prev
  end.

(** The three [onChange] handlers.  The one of the consumption input
    passes the Number [parseInt(e.target.value) || 0] where a string is
    expected; [parseInt(value, 10)] then reads its string conversion. *)
Definition onChange (ev : InputEvent) (prev : FormInputData) : FormInputData :=
  match ev with
  | LocationInput raw => handleInputChange locationField raw prev
  | AcresInput raw => handleInputChange acresField raw prev
  | ConsumptionInput raw =>
      let n := parseInt raw in
      handleInputChange consumptionField
        (NumberToString (if truthy n then n else ofZ 0)) prev
  end.

(** The form data after a sequence of input events, oldest first. *)
Definition afterInputs (evs : list InputEvent) (start : FormInputData)
  : FormInputData :=
  fold_left (fun fd ev => onChange ev fd) evs start.

End InputChange.

End ForecastForm.

(** ** src/components/ForecastResults.tsx *)

Module ForecastResults.
Import JS.

(** The [data] prop.  The interface declares [latitude] and [longitude] as
    numbers; at run time they hold whatever [coords.lat] and [coords.lon]
    evaluated to in [Index.handleFormSubmit], which can be undefined
    ([None]). *)
Record ForecastData : Type := {
  latitude : option number;
  longitude : option number;
  acres : number;
  consumption : number;
  location : string
}.

(** The three [useState] cells; [prediction] is the [predicted_kwh_month]
    field of the stored object, [None] for null. *)
Record State : Type := {
  prediction : option number;
  loading : bool;
  error : option string
}.

Definition initialState : State :=
  {| prediction := None; loading := true; error := None |}.

Record Request : Type := {
  url : string;
  method : string;
  headers : list (string * string);
  body : Json
}.

(** A [Response] as the flow observes it: the status line and what the
    promises of [text()] and [json()] settle to. *)
Record Response : Type := {
  status : N;
  statusText : string;
  text : Settled string;
  json : Settled Json
}.

(** [response.ok]: the status is in the range 200..299. *)
Definition ok (r : Response) : bool :=
  ((200 <=? status r) && (status r <=? 299))%N.

(** The network as seen from the client: what the promise of [fetch]
    settles to for a request. *)
Definition Network : Type := Request -> Settled Response.

Inductive Event : Type :=
| ConsoleLog (label : string)
| ConsoleError (label : string)
| Fetch (rq : Request).

(** *** The effect monad of the flow: component state, the trace of
    observable events (oldest first), and exceptions. *)

Record World : Type := { ui : State; trace : list Event }.

Definition Eff (A : Type) : Type := World -> Settled A * World.

Definition ret {A : Type} (a : A) : Eff A := fun w => (Fulfilled a, w).

Definition bind {A B : Type} (m : Eff A) (k : A -> Eff B) : Eff B :=
  fun w =>
    match m w with
    | (Fulfilled a, w') => k a w'
    | (Rejected t, w') => (Rejected t, w')
    end.

Definition throw {A : Type} (t : Thrown) : Eff A := fun w => (Rejected t, w).

(** [await p] *)
Definition await {A : Type} (p : Settled A) : Eff A := fun w => (p, w).

(** [try { m } catch (e) { handler e }] *)
Definition tryCatch {A : Type} (m : Eff A) (handler : Thrown -> Eff A) : Eff A :=
  fun w =>
    match m w with
    | (Fulfilled a, w') => (Fulfilled a, w')
    | (Rejected t, w') => handler t w'
    end.

(** [try { m } finally { final }] *)
Definition tryFinally {A : Type} (m : Eff A) (final : Eff unit) : Eff A :=
  fun w =>
    match m w with
    | (r, w') =>
        match final w' with
        | (Fulfilled _, w'') => (r, w'')
        | (Rejected t, w'') => (Rejected t, w'')
        end
    end.

Notation "x <- m ;; k" := (bind m (fun x => k))
  (at level 61, m at next level, right associativity).
Notation "m ;; k" := (bind m (fun _ => k))
  (at level 61, right associativity).

Definition emit (e : Event) : Eff unit :=
  fun w => (Fulfilled tt, {| ui := ui w; trace := trace w ++ [e] |}).

Definition setPrediction (p : option number) : Eff unit :=
  fun w => (Fulfilled tt,
            {| ui := {| prediction := p; loading := loading (ui w); error := error (ui w) |};
               trace := trace w |}).

Definition setLoading (b : bool) : Eff unit :=
  fun w => (Fulfilled tt,
            {| ui := {| prediction := prediction (ui w); loading := b; error := error (ui w) |};
               trace := trace w |}).

Definition setError (e : option string) : Eff unit :=
  fun w => (Fulfilled tt,
            {| ui := {| prediction := prediction (ui w); loading := loading (ui w); error := e |};
               trace := trace w |}).

Definition fetch (net : Network) (rq : Request) : Eff Response :=
  emit (Fetch rq) ;; await (net rq).

Definition apiUrl : string := "http://127.0.0.1:5000/predict".

(** The object literal [requestData] and the request built from it. *)
Definition requestData (data : ForecastData) : list (string * option number) :=
  [ ("latitude", latitude data);
    ("longitude", longitude data);
    ("acres", Some (acres data)) ].

Definition predictRequest (data : ForecastData) : Request :=
  {| url := apiUrl;
     method := "POST";
     headers := [("Content-Type", "application/json")];
     body := JSON_stringify (requestData data) |}.

(** [fetchPrediction], the body of the effect that runs when [data]
    changes. *)
Definition fetchPrediction (net : Network) (data : ForecastData) : Eff unit :=
  setLoading true ;;
  setError None ;;
  setPrediction None ;;
  if negb (truthy (acres data)) || le (acres data) (ofZ 0) then
    setError (Some "Invalid input: Acres must be a positive number.") ;;
    setLoading false
  else
    tryFinally
      (tryCatch
         (emit (ConsoleLog "Sending request to API:") ;;
          response <- fetch net (predictRequest data) ;;
          (if negb (ok response) then
             errorBody <- tryCatch (await (text response))
                            (fun _ => ret "Could not read error details.") ;;
             emit (ConsoleError "API Error Response:") ;;
             throw (ErrorInstance
                      ("API request failed: " ++ decimal (status response)
                       ++ " " ++ statusText response))
           else ret tt) ;;
          result <- await (json response) ;;
          emit (ConsoleLog "API Response:") ;;
          match (if jsonTruthy result
                 then getProperty result "predicted_kwh_month" else None) with
          | Some (JNumber n) =>
              if negb (isNaN n) then setPrediction (Some n)
              else
                emit (ConsoleError "Invalid prediction format received:") ;;
                throw (ErrorInstance "Invalid prediction format received from API.")
          | _ =>
              emit (ConsoleError "Invalid prediction format received:") ;;
              throw (ErrorInstance "Invalid prediction format received from API.")
          end)
         (fun fetchErr =>
            emit (ConsoleError "Error fetching prediction:") ;;
            setError (Some
              match fetchErr with
              | ErrorInstance message => "API Communication Error: " ++ message
              | OtherThrown =>
                  "An unknown error occurred connecting to the forecast service."
              end)))
      (setLoading false).

(** One run of the effect, from a component state and an empty trace. *)
Definition runFetchPrediction (net : Network) (data : ForecastData) (st : State)
  : World :=
  snd (fetchPrediction net data {| ui := st; trace := [] |}).

(** The requests a run issued. *)
Definition requestsOf (evs : list Event) : list Request :=
  flat_map (fun e => match e with Fetch rq => [rq] | _ => [] end) evs.

(** *** Values derived at render time *)

(** [prediction.predicted_kwh_month ?? 0] *)
Definition actualOutput (st : State) : number :=
  match prediction st with
  | Some p => p
  | None => ofZ 0
  end.

(** The results block is rendered when
    [!loading && !error && prediction.predicted_kwh_month !== null]. *)
Definition resultsDisplayed (st : State) : bool :=
  negb (loading st)
  && match error st with None => true | Some e => String.eqb e "" end
  && match prediction st with None => false | Some _ => true end.

(** The percentage of the "Potential" line. *)
Definition coveragePercent (data : ForecastData) (st : State) : number :=
  if gt (consumption data) (ofZ 0)
  then MathMax (ofZ 0)
         (MathMin (ofZ 100)
            (MathRound (mul (div (actualOutput st) (consumption data)) (ofZ 100))))
  else ofZ 0.

(** The skeleton is rendered when [loading], the error card when
    [error && !loading]. *)
Definition loadingDisplayed (st : State) : bool := loading st.

Definition errorDisplayed (st : State) : bool :=
  match error st with None => false | Some e => negb (String.eqb e "") end
  && negb (loading st).






Definition co2Offset (st : State) : number := mul (actualOutput st) (dec 7 1).

(** The seasonal factors of [monthlyData]. *)
Definition factors : list number :=
  [ dec 9 1; dec 10 1; dec 115 2; dec 12 1; dec 11 1; dec 8 1;
    dec 7 1; dec 75 2; dec 85 2; dec 10 1; dec 95 2; dec 9 1 ].

(** A row of the chart data; the fields are [month], [generation],
    [consumption] and [surplus] in the source. *)
Record MonthRow : Type := {
  row_month : string;
  row_generation : number;
  row_consumption : number;
  row_surplus : number
}.

Section MonthlyData.

(** [new Date(0, index).toLocaleString('default', { month: 'short' })],
    which depends on the host's locale. *)
Variable monthShort : nat -> string.

Definition monthlyData (data : ForecastData) (st : State) : list MonthRow :=
  mapIndexed
    (fun factor index =>
       {| row_month := monthShort index;
          row_generation :=
            MathMax (ofZ 0) (MathRound (mul (actualOutput st) factor));
          row_consumption := consumption data;
          row_surplus :=
            MathRound (sub (mul (actualOutput st) factor) (consumption data)) |})
    0%nat factors.

End MonthlyData.

End ForecastResults.

(** ** src/pages/Index.tsx *)

Module Index.
Import JS.

Record Coords : Type := { lat : number; lon : number }.

(** An entry [{ lat: la, lon: lo }] with four-decimal literals, given in
    units of 10^-4 degree. *)
Definition entry (la lo : Z) : Coords := {| lat := dec la 4; lon := dec lo 4 |}.

(** The own properties of the object literal [locationLookup], in the order
    of the literal. *)
Definition locationLookup : list (string * Coords) :=
  [ ("pune",             entry 185204 738567);
    ("kothrud",          entry 185074 738095);
    ("hinjewadi",        entry 185912 737389);
    ("viman nagar",      entry 185679 739143);
    ("pimpri",           entry 186277 738138);
    ("chinchwad",        entry 186277 738138);
    ("pimpri-chinchwad", entry 186277 738138);
    ("hadapsar",         entry 185089 739244);
    ("aundh",            entry 185529 738091);
    ("wakad",            entry 186015 737663);
    ("baner",            entry 185590 737798);
    ("pune station",     entry 185283 738754);
    ("swargate",         entry 185029 738634);
    ("kharadi",          entry 185528 739268);
    ("katraj",           entry 184520 738604) ].

(** [locationLookup] is a plain object: its prototype is
    [Object.prototype], whose properties every property read falls back
    to. *)
Definition ObjectPrototype_properties : list string :=
  [ "constructor"; "__defineGetter__"; "__defineSetter__"; "hasOwnProperty";
    "__lookupGetter__"; "__lookupSetter__"; "isPrototypeOf";
    "propertyIsEnumerable"; "toString"; "valueOf"; "__proto__";
    "toLocaleString" ].

(** What a property read on [locationLookup] can evaluate to. *)
Inductive Value : Type :=
| Undefined
| Entry (c : Coords)          (* an own property: one of the table's entries *)
| Inherited (name : string).  (* the [Object.prototype] property of that name:
                                 a built-in function object, and
                                 [Object.prototype] itself for [__proto__] *)

(** [locationLookup[key]] *)
Definition Get (key : string) : Value :=
  match assoc key locationLookup with
  | Some c => Entry c
  | None =>
      if existsb (String.eqb key) ObjectPrototype_properties
      then Inherited key else Undefined
  end.

(** ToBoolean: every object is truthy. *)
Definition truthyValue (v : Value) : bool :=
  match v with Undefined => false | _ => true end.

(** The keys [for (const key in locationLookup)] visits: the own enumerable
    string keys in creation order (none of them is an array index); the
    properties of [Object.prototype] are not enumerable. *)
Definition forInKeys : list string := map fst locationLookup.

(** The [for ... in] loop of [getCoordsFromLocationString]: [Some v] when
    an iteration returns [v], [None] when the loop runs to its end. *)
Fixpoint firstContained (keys : list string) (normalizedLocation : string)
  : option Value :=
  match keys with
  | [] => None
  | key :: rest =>
      if includes normalizedLocation key then Some (Get key)
      else firstContained rest normalizedLocation
  end.

(** The resolver.  Its result is what the [return] statements evaluate to;
    the [console.warn] before the last one is left out. *)
Definition getCoordsFromLocationString (location : string) : Value :=
  let normalizedLocation := toLowerCase (trim location) in
  if truthyValue (Get normalizedLocation) then Get normalizedLocation
  else
    match firstContained forInKeys normalizedLocation with
    | Some v => v
    | None => Get "pune"
    end.

(** [coords.lat] and [coords.lon]: the field of an entry, undefined on a
    function object or on [Object.prototype]; reading a property of
    undefined throws a TypeError. *)
Definition getLat (coords : Value) : Settled (option number) :=
  match coords with
  | Entry c => Fulfilled (Some (lat c))
  | Inherited _ => Fulfilled None
  | Undefined => Rejected (ErrorInstance "Cannot read properties of undefined")
  end.

Definition getLon (coords : Value) : Settled (option number) :=
  match coords with
  | Entry c => Fulfilled (Some (lon c))
  | Inherited _ => Fulfilled None
  | Undefined => Rejected (ErrorInstance "Cannot read properties of undefined")
  end.

Inductive View : Type := hero | form | results.

Record State : Type := {
  currentView : View;
  forecastData : option ForecastResults.ForecastData
}.

Definition initialState : State :=
  {| currentView := hero; forecastData := None |}.

Definition handleGetStarted (st : State) : State :=
  {| currentView := form; forecastData := forecastData st |}.

Definition handleFormSubmit (data : ForecastForm.FormInputData) (st : State)
  : Settled State :=
  let coords := getCoordsFromLocationString (ForecastForm.location data) in
  match getLat coords, getLon coords with
  | Fulfilled la, Fulfilled lo =>
      let dataForResults :=
        {| ForecastResults.latitude := la;
           ForecastResults.longitude := lo;
           ForecastResults.acres := ForecastForm.acres data;
           ForecastResults.consumption := ForecastForm.consumption data;
           ForecastResults.location := ForecastForm.location data |} in
      Fulfilled {| currentView := results; forecastData := Some dataForResults |}
  | Rejected t, _ => Rejected t
  | _, Rejected t => Rejected t
  end.

Definition handleBackToForm (st : State) : State :=
  {| currentView := form; forecastData := forecastData st |}.

(** The [data] prop of the mounted [ForecastResults], if the page renders
    one: [currentView === "results" && forecastData]. *)
Definition resultsData (st : State) : option ForecastResults.ForecastData :=
  match currentView st with
  | results => forecastData st
  | _ => None
  end.

(** A forecast submitted through the form's [onSubmit]: the page state
    after [handleFormSubmit] and, when the results view mounts, the world
    after its effect has run. *)
Definition submitForecast (net : ForecastResults.Network)
  (data : ForecastForm.FormInputData) (st : State)
  : option ForecastResults.World :=
  match handleFormSubmit data st with
  | Fulfilled st' =>
      match resultsData st' with
      | Some d =>
          Some (ForecastResults.runFetchPrediction net d ForecastResults.initialState)
      | None => None
      end
  | Rejected _ => None
  end.

End Index.

(** ** The backend pipeline (Flask, [backend/app.py]) *)

Module Backend.

Local Open Scope Q_scope.

(** Modelled from the spec: the error kinds of the pipeline (section 7);
    the backend's source, [backend/app.py], is absent. *)
Inductive PipelineError : Type :=
| InvalidLandAreaError
| EmptyForecastError
| FeatureSchemaError
| UpstreamWeatherError
| ModelLoadError.

(** Modelled from the spec: a component of the absent backend either
    returns a value or fails with one of the error kinds. *)
Inductive Result (A : Type) : Type :=
| Ok (a : A)
| Err (e : PipelineError).
Arguments Ok {A} a.
Arguments Err {A} e.

(** Modelled from the spec: the entities of section 3 of the absent
    backend, with exact rational arithmetic standing for its floats.  A
    calendar date is a year, a month and a day. *)
Definition Date : Type := (Z * Z * Z)%type.

(** Modelled from the spec: HourlySample of the absent backend; the
    timestamp is a date and an hour. *)
Record HourlySample : Type := {
  timestamp : Date * Z;
  ambient_temperature : Q;
  irradiance : Q
}.

(** Modelled from the spec: DailyWeatherFeature of the absent backend. *)
Record DailyWeatherFeature : Type := {
  date : Date;
  mean_temperature : Q;
  irradiance_energy : Q
}.

(** Modelled from the spec: DailyYield of the absent backend. *)
Record DailyYield : Type := {
  yield_date : Date;
  kwh_per_acre : Q
}.

(** Modelled from the spec: MonthlyEstimate of the absent backend. *)
Record MonthlyEstimate : Type := { predicted_kwh_month : Q }.

(** Modelled from the spec: equality of the grouping key of the absent
    aggregator, the date component of a timestamp. *)
Definition date_eqb (a b : Date) : bool :=
  let '(y1, m1, d1) := a in
  let '(y2, m2, d2) := b in
  ((y1 =? y2) && (m1 =? m2) && (d1 =? d2))%Z.

(** Modelled from the spec: the sum of a sequence as the absent backend
    accumulates it, from the left. *)
Definition total (xs : list Q) : Q := fold_left Qplus xs 0.

(** Modelled from the spec: the mean the absent backend takes over a day's
    samples and over the daily yields. *)
Definition mean (xs : list Q) : Q := total xs / inject_Z (Z.of_nat (List.length xs)).

(** Modelled from the spec: the absent aggregator's grouping of the hourly
    samples by the date of their timestamp, contiguous runs in input order
    (section 4.1). *)
Fixpoint groupByDate (hourly : list HourlySample)
  : list (Date * list HourlySample) :=
  match hourly with
  | [] => []
  | h :: rest =>
      match groupByDate rest with
      | (d, g) :: gs =>
          if date_eqb (fst (timestamp h)) d then (d, h :: g) :: gs
          else (fst (timestamp h), [h]) :: (d, g) :: gs
      | [] => [(fst (timestamp h), [h])]
      end
  end.

(** Modelled from the spec: the absent aggregator's feature record of one
    day; the mean of the day's temperatures, and its irradiance samples
    (W/m2, one hour each) summed and divided by 1000 (section 4.1). *)
Definition dailyFeature (g : Date * list HourlySample) : DailyWeatherFeature :=
  {| date := fst g;
     mean_temperature := mean (map ambient_temperature (snd g));
     irradiance_energy := total (map irradiance (snd g)) / 1000 |}.

(** Modelled from the spec: [WeatherAggregator.aggregate] of the absent
    backend (section 4.1), failing with [EmptyForecastError] on an empty
    input. *)
Definition aggregate (hourly : list HourlySample)
  : Result (list DailyWeatherFeature) :=
  match hourly with
  | [] => Err EmptyForecastError
  | _ => Ok (map dailyFeature (groupByDate hourly))
  end.

(** Modelled from the spec: the absent backend's average number of days
    per month. *)
Definition DAYS_PER_MONTH : Q := 30.4.

(** Modelled from the spec: [MonthlyEstimator.estimate] of the absent
    backend (section 4.4):
    [avg_daily = mean(y.kwh_per_acre)],
    [predicted_kwh_month = avg_daily * acres * 30.4], failing with
    [EmptyForecastError] when there is no daily yield. *)
Definition estimate (daily_yields : list DailyYield) (acres : Q)
  : Result MonthlyEstimate :=
  match daily_yields with
  | [] => Err EmptyForecastError
  | _ =>
      let avg_daily := mean (map kwh_per_acre daily_yields) in
      Ok {| predicted_kwh_month := avg_daily * acres * DAYS_PER_MONTH |}
  end.

End Backend.

(** ** Vocabulary of the statements *)

Import JS.

(** The normalised form of a location string,
    [location.trim().toLowerCase()]. *)
Definition normalized (s : string) : string := toLowerCase (trim s).

(** A string that does not start with white space. *)
Definition startsClean (s : string) : Prop :=
  match s with
  | EmptyString => True
  | String c _ => isWhiteSpace c = false
  end.

(** A string without any white space. *)
Fixpoint noWhiteSpace (s : string) : bool :=
  match s with
  | EmptyString => true
  | String c rest => negb (isWhiteSpace c) && noWhiteSpace rest
  end.

(** The default entry, central Pune. *)
Definition puneCoords : Index.Coords := Index.entry 185204 738567.

(** Whether a property read on [locationLookup] with a name that is not a
    key of the table falls through to a property of [Object.prototype]. *)
Definition inheritedName (n : string) : bool :=
  existsb (String.eqb n) Index.ObjectPrototype_properties.

(** The prediction a response carries when the client is to accept it: the
    status is 2xx, the body parses, and it has a [predicted_kwh_month]
    property that is a Number other than NaN. *)
Definition acceptedPrediction (r : ForecastResults.Response) : option number :=
  if ForecastResults.ok r then
    match ForecastResults.json r with
    | Fulfilled j =>
        match getProperty j "predicted_kwh_month" with
        | Some (JNumber n) => if isNaN n then None else Some n
        | _ => None
        end
    | Rejected _ => None
    end
  else None.

(** The moves of the page (the [return] of [Index]): the hero view offers
    [onGetStarted], the form view [onSubmit] with whatever the form hands
    over, and the results view, mounted when there are forecast data,
    [onBack]. *)
Inductive pageStep : Index.State -> Index.State -> Prop :=
| step_getStarted (st : Index.State) :
    Index.currentView st = Index.hero ->
    pageStep st (Index.handleGetStarted st)
| step_submit (st st' : Index.State) (formData d : ForecastForm.FormInputData) :
    Index.currentView st = Index.form ->
    In (ForecastForm.OnSubmit d) (ForecastForm.handleSubmit formData) ->
    Index.handleFormSubmit d st = Fulfilled st' ->
    pageStep st st'
| step_back (st : Index.State) (d : ForecastResults.ForecastData) :
    Index.resultsData st = Some d ->
    pageStep st (Index.handleBackToForm st).

(** The page states the application can be in. *)
Inductive pageReachable : Index.State -> Prop :=
| reach_initial : pageReachable Index.initialState
| reach_step (st st' : Index.State) :
    pageReachable st -> pageStep st st' -> pageReachable st'.

(** A Number that is zero or above: +0, -0, a positive finite Number or
    +Infinity. *)
Definition nonNegative (x : number) : bool := le (ofZ 0) x.

(** A Number that is zero or below. *)
Definition nonPositive (x : number) : bool := le x (ofZ 0).

(** A Number other than NaN whose sign bit is [s]. *)
Definition signed (s : bool) (x : number) : Prop :=
  match x with
  | S754_zero s' | S754_infinity s' | S754_finite s' _ _ => s' = s
  | S754_nan => False
  end.

(** The sum and the arithmetic mean of a sequence of rationals, by
    recursion on the sequence. *)
Fixpoint sumOf (xs : list Q) : Q :=
  match xs with
  | [] => 0%Q
  | x :: rest => (x + sumOf rest)%Q
  end.

Definition arithmeticMean (xs : list Q) : Q :=
  (sumOf xs / inject_Z (Z.of_nat (List.length xs)))%Q.

(* ================================================================== *)
(** * Part II: properties *)
(* ================================================================== *)

(** ** The model on a few inputs *)

Example dec_is_the_nearest_double :
  dec 185204 4 = S754_finite false 5213029158672033 (-48)
  /\ dec 304 1 = S754_finite false 8556839292003942 (-48).
Proof. split; reflexivity. Qed.

Example MathRound_ties_go_up :
  MathRound (dec 25 1) = ofZ 3
  /\ MathRound (dec (-25) 1) = ofZ (-2)
  /\ MathRound (dec 5 1) = ofZ 1
  /\ MathRound (dec (-3) 1) = S754_zero true
  /\ MathRound (dec 12345678 3) = ofZ 12346.
Proof. repeat split. Qed.

Example normalized_example :
  normalized "  Kothrud, Pune " = "kothrud, pune"
  /\ includes "kothrud, pune" "pune" = true
  /\ includes "kothrud, pune" "baner" = false.
Proof. repeat split. Qed.

(** ** Strings: normalisation and substring search *)

Section StringFacts.

Lemma isWhiteSpace_lowerCodeUnit (c : ascii) :
  isWhiteSpace (lowerCodeUnit c) = isWhiteSpace c.
Proof. destruct c as [[] [] [] [] [] [] [] []]; reflexivity. Qed.

Lemma lowerCodeUnit_idempotent (c : ascii) :
  lowerCodeUnit (lowerCodeUnit c) = lowerCodeUnit c.
Proof. destruct c as [[] [] [] [] [] [] [] []]; reflexivity. Qed.

Lemma toLowerCase_idempotent (s : string) :
  toLowerCase (toLowerCase s) = toLowerCase s.
Proof.
  induction s as [|c s IH]; simpl.
  - reflexivity.
  - now rewrite lowerCodeUnit_idempotent, IH.
Qed.

Lemma trimStart_toLowerCase (s : string) :
  trimStart (toLowerCase s) = toLowerCase (trimStart s).
Proof.
  induction s as [|c s IH]; simpl.
  - reflexivity.
  - rewrite isWhiteSpace_lowerCodeUnit.
    destruct (isWhiteSpace c); [exact IH | reflexivity].
Qed.

Lemma trimEnd_toLowerCase (s : string) :
  trimEnd (toLowerCase s) = toLowerCase (trimEnd s).
Proof.
  induction s as [|c s IH]; simpl.
  - reflexivity.
  - rewrite IH, isWhiteSpace_lowerCodeUnit.
    destruct (trimEnd s) as [|d t]; simpl.
    + destruct (isWhiteSpace c); reflexivity.
    + reflexivity.
Qed.

Lemma trim_toLowerCase (s : string) :
  trim (toLowerCase s) = toLowerCase (trim s).
Proof.
  unfold trim. now rewrite trimStart_toLowerCase, trimEnd_toLowerCase.
Qed.

Lemma trimStart_startsClean (s : string) : startsClean (trimStart s).
Proof.
  induction s as [|c s IH]; simpl.
  - exact I.
  - destruct (isWhiteSpace c) eqn:E; [exact IH | exact E].
Qed.

Lemma trimStart_fixed (s : string) : startsClean s -> trimStart s = s.
Proof.
  destruct s as [|c s]; simpl; intros H.
  - reflexivity.
  - now rewrite H.
Qed.

Lemma trimEnd_startsClean (s : string) : startsClean s -> startsClean (trimEnd s).
Proof.
  destruct s as [|c s]; simpl; intros H.
  - exact I.
  - destruct (trimEnd s); rewrite ?H; exact H.
Qed.

Lemma trimEnd_String (c : ascii) (s : string) :
  trimEnd (String c s)
  = match trimEnd s with
    | EmptyString => if isWhiteSpace c then EmptyString else String c EmptyString
    | String d t => String c (String d t)
    end.
Proof. reflexivity. Qed.

Lemma trimEnd_idempotent (s : string) : trimEnd (trimEnd s) = trimEnd s.
Proof.
  induction s as [|c s IH]; simpl.
  - reflexivity.
  - destruct (trimEnd s) as [|d t] eqn:E.
    + destruct (isWhiteSpace c) eqn:W; simpl; [reflexivity | now rewrite W].
    + change (trimEnd (String c (String d t))) with
        (match trimEnd (String d t) with
         | EmptyString =>
             if isWhiteSpace c then EmptyString else String c EmptyString
         | u => String c u
         end).
      now rewrite IH.
Qed.

Lemma trim_idempotent (s : string) : trim (trim s) = trim s.
Proof.
  unfold trim.
  rewrite (trimStart_fixed (trimEnd (trimStart s))).
  - apply trimEnd_idempotent.
  - apply trimEnd_startsClean, trimStart_startsClean.
Qed.

(** Normalising twice is normalising once. *)
Lemma normalize_idempotent (s : string) :
  toLowerCase (trim (toLowerCase (trim s))) = toLowerCase (trim s).
Proof.
  now rewrite trim_toLowerCase, trim_idempotent, toLowerCase_idempotent.
Qed.

Lemma prefix_spec (k s : string) :
  String.prefix k s = true <-> exists b, s = (k ++ b)%string.
Proof.
  revert s; induction k as [|c k IH]; intros s.
  - split; [intros _; now exists s | intros _; now destruct s].
  - destruct s as [|d s]; simpl.
    + split; [discriminate | intros [b Hb]; discriminate].
    + destruct (ascii_dec c d) as [->|Hne].
      * rewrite IH. split; intros [b Hb]; exists b; [now rewrite Hb | now inversion Hb].
      * split; [discriminate | intros [b Hb]; inversion Hb; congruence].
Qed.

(** [includes] decides the occurrence of [k] inside [s]. *)
Lemma includes_spec (s k : string) :
  includes s k = true <-> exists a b, s = (a ++ k ++ b)%string.
Proof.
  induction s as [|c s IH].
  - cbn [includes]. rewrite orb_false_r, prefix_spec. split.
    + intros [b Hb]. now exists EmptyString, b.
    + intros [a [b H]]. destruct a; [now exists b | discriminate].
  - cbn [includes]. rewrite orb_true_iff, prefix_spec, IH. split.
    + intros [[b Hb] | [a [b Hab]]].
      * now exists EmptyString, b.
      * exists (String c a), b. simpl. now rewrite Hab.
    + intros [a [b H]]. destruct a as [|d a]; simpl in H.
      * left. now exists b.
      * right. inversion H. now exists a, b.
Qed.

Lemma toLowerCase_app (a b : string) :
  toLowerCase (a ++ b)%string = (toLowerCase a ++ toLowerCase b)%string.
Proof. induction a as [|c a IH]; simpl; [reflexivity | now rewrite IH]. Qed.

(** An occurrence survives lower-casing, as the lower-cased key. *)
Lemma includes_toLowerCase (s k : string) :
  includes s k = true -> includes (toLowerCase s) (toLowerCase k) = true.
Proof.
  rewrite !includes_spec. intros [a [b ->]].
  exists (toLowerCase a), (toLowerCase b). now rewrite !toLowerCase_app.
Qed.

Lemma trimStart_keeps (a k b : string) :
  noWhiteSpace k = true -> k <> "" ->
  exists a', trimStart (a ++ k ++ b)%string = (a' ++ k ++ b)%string.
Proof.
  intros Hk Hne. induction a as [|c a IH].
  - exists "". destruct k as [|d k]; [congruence|].
    simpl in *. apply andb_prop in Hk. destruct Hk as [Hd _].
    apply negb_true_iff in Hd. now rewrite Hd.
  - simpl. destruct (isWhiteSpace c).
    + exact IH.
    + now exists (String c a).
Qed.

Lemma trimEnd_clean_app (k b : string) :
  noWhiteSpace k = true -> k <> "" ->
  trimEnd (k ++ b)%string = (k ++ trimEnd b)%string.
Proof.
  induction k as [|c k IH]; [congruence|]. intros Hk _.
  simpl in Hk. apply andb_prop in Hk. destruct Hk as [Hc Hk].
  apply negb_true_iff in Hc.
  destruct k as [|d k].
  - simpl. rewrite Hc. now destruct (trimEnd b).
  - change (String c (String d k) ++ b)%string
      with (String c (String d k ++ b)%string).
    rewrite trimEnd_String, IH by (auto; discriminate). reflexivity.
Qed.

Lemma trimEnd_app_nonempty (x y : string) :
  trimEnd y <> "" -> trimEnd (x ++ y)%string = (x ++ trimEnd y)%string.
Proof.
  intros Hy. induction x as [|c x IH]; [reflexivity|].
  simpl. rewrite IH. destruct (x ++ trimEnd y)%string eqn:E; [|reflexivity].
  destruct x; simpl in E; [contradiction | discriminate].
Qed.

(** An occurrence of a key without white space survives trimming. *)
Lemma includes_trim (s k : string) :
  noWhiteSpace k = true -> k <> "" ->
  includes s k = true -> includes (trim s) k = true.
Proof.
  intros Hk Hne. rewrite !includes_spec. intros [a [b ->]].
  destruct (trimStart_keeps a k b Hk Hne) as [a' Ha].
  unfold trim. rewrite Ha.
  exists a', (trimEnd b).
  rewrite trimEnd_app_nonempty; rewrite trimEnd_clean_app; auto.
  destruct k; [congruence | discriminate].
Qed.

(** If the input contains, in any letter case, a lower-case key that has no
    white space, its normalised form contains the key. *)
Lemma includes_normalized (s u k : string) :
  noWhiteSpace k = true -> k <> "" ->
  toLowerCase u = k -> includes s u = true ->
  includes (normalized s) k = true.
Proof.
  intros Hk Hne Hu Hs. unfold normalized. rewrite <- trim_toLowerCase.
  apply includes_trim; auto. rewrite <- Hu. now apply includes_toLowerCase.
Qed.

End StringFacts.

(** ** Index: the name-to-coordinate resolver *)

Section Resolver.
Import Index.

Lemma assoc_In {A : Type} (k : string) (props : list (string * A)) (v : A) :
  assoc k props = Some v -> In (k, v) props.
Proof.
  induction props as [|[k' v'] rest IH]; simpl.
  - discriminate.
  - destruct (String.eqb k k') eqn:E.
    + apply String.eqb_eq in E. intros [= ->]. left. now rewrite E.
    + intros H. right. now apply IH.
Qed.

Lemma assoc_first {A : Type} (k : string) (v : A) (pre post : list (string * A)) :
  ~ In k (map fst pre) -> assoc k (pre ++ (k, v) :: post)%list = Some v.
Proof.
  induction pre as [|[k' v'] pre IH]; simpl; intros H.
  - now rewrite String.eqb_refl.
  - destruct (String.eqb k k') eqn:E.
    + apply String.eqb_eq in E. exfalso. apply H. now left.
    + apply IH. intros Hin. apply H. now right.
Qed.

(** The keys of the table are pairwise distinct. *)
Lemma locationLookup_keys_NoDup : NoDup forInKeys.
Proof.
  unfold forInKeys, locationLookup; simpl.
  repeat (constructor; [simpl; intros H; repeat (destruct H as [H|H]; [discriminate H|]); exact H|]).
  constructor.
Qed.

Lemma Get_declared (k : string) (c : Coords) (pre post : list (string * Coords)) :
  locationLookup = (pre ++ (k, c) :: post)%list -> Get k = Entry c.
Proof.
  intros E. unfold Get. rewrite E, assoc_first; [reflexivity|].
  pose proof locationLookup_keys_NoDup as N. unfold forInKeys in N.
  rewrite E, map_app in N. simpl in N.
  apply NoDup_remove_2 in N. intros Hin. apply N, in_or_app. now left.
Qed.

Lemma Get_of_key (k : string) :
  In k forInKeys -> exists c, In (k, c) locationLookup /\ Get k = Entry c.
Proof.
  unfold forInKeys. intros Hin. apply in_map_iff in Hin.
  destruct Hin as [[k' c'] [Hk Hin]]. simpl in Hk. subst k'.
  unfold Get. destruct (assoc k locationLookup) as [c|] eqn:E.
  - exists c. split; [now apply assoc_In | reflexivity].
  - exfalso. clear -E Hin. induction locationLookup as [|[k1 c1] l IH]; simpl in *.
    + exact Hin.
    + destruct (String.eqb k k1) eqn:E1; [discriminate|].
      destruct Hin as [H|H]; [|now apply IH].
      inversion H; subst. now rewrite String.eqb_refl in E1.
Qed.

(** The loop returns at the first key, in declaration order, that occurs
    in the normalised input. *)
Lemma firstContained_first (n k : string) (pre post : list string) :
  includes n k = true ->
  (forall k', In k' pre -> includes n k' = false) ->
  firstContained (pre ++ k :: post)%list n = Some (Get k).
Proof.
  intros Hk. induction pre as [|k0 pre IH]; simpl; intros Hpre.
  - now rewrite Hk.
  - rewrite (Hpre k0) by now left. apply IH. intros k' H. apply Hpre. now right.
Qed.

Lemma firstContained_Some (n : string) (keys : list string) (v : Value) :
  firstContained keys n = Some v ->
  exists k, In k keys /\ includes n k = true /\ v = Get k.
Proof.
  induction keys as [|k keys IH]; simpl.
  - discriminate.
  - destruct (includes n k) eqn:E.
    + intros [= <-]. exists k. auto.
    + intros H. destruct (IH H) as [k' [Hin Hk']]. exists k'. auto.
Qed.

Lemma firstContained_None (n : string) (keys : list string) :
  firstContained keys n = None ->
  forall k, In k keys -> includes n k = false.
Proof.
  induction keys as [|k0 keys IH]; simpl.
  - intros _ k [].
  - destruct (includes n k0) eqn:E; [discriminate|].
    intros H k [<-|Hin]; [exact E | now apply IH].
Qed.

(** No property name of [Object.prototype] contains a key of the table. *)
Lemma inheritedName_includes_no_key (n k : string) :
  inheritedName n = true -> In k forInKeys -> includes n k = false.
Proof.
  unfold inheritedName. rewrite existsb_exists. intros [p [Hp E]].
  apply String.eqb_eq in E. subst p. revert k.
  apply Forall_forall.
  revert n Hp. apply Forall_forall.
  unfold ObjectPrototype_properties, forInKeys, locationLookup.
  repeat constructor.
Qed.

(** After lower-casing, only two of the inherited names can be hit. *)
Lemma inheritedName_normalized (s : string) :
  inheritedName (normalized s) = true ->
  normalized s = "constructor" \/ normalized s = "__proto__".
Proof.
  pose proof (toLowerCase_idempotent (trim s)) as Hid.
  unfold inheritedName, normalized in *. rewrite existsb_exists. intros [p [Hp E]].
  apply String.eqb_eq in E. rewrite E in *.
  unfold ObjectPrototype_properties in Hp. simpl in Hp.
  repeat (destruct Hp as [<-|Hp]; [first [now left | now right | discriminate Hid]|]).
  destruct Hp.
Qed.

Lemma Get_own (n : string) (c : Coords) :
  assoc n locationLookup = Some c -> Get n = Entry c.
Proof. unfold Get. now intros ->. Qed.

Lemma Get_absent (n : string) :
  assoc n locationLookup = None -> inheritedName n = false -> Get n = Undefined.
Proof. unfold Get, inheritedName. now intros -> ->. Qed.

Lemma Get_inherited (n : string) :
  assoc n locationLookup = None -> inheritedName n = true -> Get n = Inherited n.
Proof. unfold Get, inheritedName. now intros -> ->. Qed.

(** What the resolver does on every input whose normalised form is not a
    property name of [Object.prototype]: the exact entry, else the entry
    of a contained key, else the default. *)
Lemma getCoords_three_way (s : string) :
  inheritedName (normalized s) = false ->
  (exists c, assoc (normalized s) locationLookup = Some c
             /\ getCoordsFromLocationString s = Entry c)
  \/ (assoc (normalized s) locationLookup = None
      /\ exists k c, In (k, c) locationLookup
                     /\ includes (normalized s) k = true
                     /\ getCoordsFromLocationString s = Entry c)
  \/ (assoc (normalized s) locationLookup = None
      /\ (forall k c, In (k, c) locationLookup -> includes (normalized s) k = false)
      /\ getCoordsFromLocationString s = Entry puneCoords).
Proof.
  intros Hn. unfold getCoordsFromLocationString. fold (normalized s).
  destruct (assoc (normalized s) locationLookup) as [c|] eqn:E.
  - left. exists c. split; [reflexivity|].
    now rewrite (Get_own _ _ E).
  - right. rewrite (Get_absent _ E Hn). cbn [truthyValue].
    destruct (firstContained forInKeys (normalized s)) as [v|] eqn:F.
    + left. split; [reflexivity|].
      apply firstContained_Some in F. destruct F as [k [Hin [Hk ->]]].
      destruct (Get_of_key k Hin) as [c [Hc Hg]].
      exists k, c. auto.
    + right. split; [reflexivity|]. split; [|reflexivity].
      intros k c Hin. apply (firstContained_None _ _ F).
      unfold forInKeys. apply in_map_iff. now exists (k, c).
Qed.

(** Every input resolves to the same value as its normalised form. *)
Lemma getCoords_normalization_invariant (s : string) :
  getCoordsFromLocationString s
  = getCoordsFromLocationString (toLowerCase (trim s)).
Proof.
  unfold getCoordsFromLocationString. now rewrite normalize_idempotent.
Qed.

(** C8.  When the normalised location is not an exact key of the table but
    contains table keys, the resolver returns the entry of the first such
    key in the table's declaration order: the key [k] declared with entry
    [c], where no key declared before [k] occurs in the input.  In
    particular every input whose normalised form contains "pune" without
    being a key resolves to central Pune, 18.5204 / 73.8567, whatever else
    it names; this is so for every input that contains "pune" in any
    letter case, such as "Kothrud, Pune". *)
Theorem first_declared_contained_key_wins :
  (forall (s k : string) (c : Coords) (pre post : list (string * Coords)),
      locationLookup = (pre ++ (k, c) :: post)%list ->
      assoc (normalized s) locationLookup = None ->
      includes (normalized s) k = true ->
      (forall k' c', In (k', c') pre -> includes (normalized s) k' = false) ->
      getCoordsFromLocationString s = Entry c)
  /\ (forall s : string,
         assoc (normalized s) locationLookup = None ->
         includes (normalized s) "pune" = true ->
         getCoordsFromLocationString s
         = Entry {| lat := dec 185204 4; lon := dec 738567 4 |})
  /\ (forall s u : string,
         assoc (normalized s) locationLookup = None ->
         includes s u = true -> toLowerCase u = "pune" ->
         getCoordsFromLocationString s
         = Entry {| lat := dec 185204 4; lon := dec 738567 4 |}).
Proof.
  assert (G : forall (s k : string) (c : Coords) (pre post : list (string * Coords)),
      locationLookup = (pre ++ (k, c) :: post)%list ->
      assoc (normalized s) locationLookup = None ->
      includes (normalized s) k = true ->
      (forall k' c', In (k', c') pre -> includes (normalized s) k' = false) ->
      getCoordsFromLocationString s = Entry c).
  { intros s k c pre post E Hnone Hk Hpre.
    assert (Hkeys : forInKeys = (map fst pre ++ k :: map fst post)%list).
    { unfold forInKeys. now rewrite E, map_app. }
    assert (Hin : In k forInKeys).
    { rewrite Hkeys. apply in_or_app. right. now left. }
    assert (Hn : inheritedName (normalized s) = false).
    { destruct (inheritedName (normalized s)) eqn:I; [|reflexivity].
      rewrite (inheritedName_includes_no_key _ _ I Hin) in Hk. discriminate. }
    unfold getCoordsFromLocationString. fold (normalized s).
    rewrite (Get_absent _ Hnone Hn). cbn [truthyValue].
    rewrite Hkeys, firstContained_first.
    - exact (Get_declared _ _ _ _ E).
    - exact Hk.
    - intros k' Hk'. apply in_map_iff in Hk'. destruct Hk' as [[k1 c1] [<- H1]].
      exact (Hpre _ _ H1). }
  assert (P : forall s : string,
         assoc (normalized s) locationLookup = None ->
         includes (normalized s) "pune" = true ->
         getCoordsFromLocationString s
         = Entry {| lat := dec 185204 4; lon := dec 738567 4 |}).
  { intros s Hnone Hp.
    apply (G s "pune" _ [] (tl locationLookup)); auto.
    intros k' c' []. }
  split; [exact G|]. split; [exact P|].
  intros s u Hnone Hs Hu. apply P; [exact Hnone|].
  apply (includes_normalized s u "pune"); auto. discriminate.
Qed.

Lemma first_declared_contained_key_wins_witness :
  getCoordsFromLocationString "Kothrud, Pune" = Entry puneCoords
  /\ getCoordsFromLocationString "  Baner road near PUNE STATION "
     = Entry puneCoords
  /\ getCoordsFromLocationString "Wakad - Hinjewadi link"
     = Entry (entry 185912 737389).
Proof.
  split; [|split].
  - apply (proj2 (proj2 first_declared_contained_key_wins) "Kothrud, Pune" "Pune");
      reflexivity.
  - apply (proj1 first_declared_contained_key_wins
             "  Baner road near PUNE STATION " "pune" puneCoords []
             (tl locationLookup));
      [reflexivity | reflexivity | reflexivity | intros k' c' []].
  - apply (proj1 first_declared_contained_key_wins
             "Wakad - Hinjewadi link" "hinjewadi" (entry 185912 737389)
             (firstn 2 locationLookup) (skipn 3 locationLookup));
      [reflexivity | reflexivity | reflexivity |].
    intros k' c' H. simpl in H.
    destruct H as [H|[H|[]]]; inversion H; subst; reflexivity.
Defined.

(** C1 (the code at the input "constructor").  The normalised input
    "constructor" is no key of the table and contains none of its keys, so
    the resolver ought to fall back to the default Pune entry.  The
    property read [locationLookup["constructor"]] however finds the
    [constructor] property that the table inherits from
    [Object.prototype]; it is truthy, and the resolver returns that
    function object, which is no entry of the table. *)
Theorem resolver_returns_inherited_property :
  assoc (normalized "constructor") locationLookup = None
  /\ forallb (fun k => negb (includes (normalized "constructor") k)) forInKeys = true
  /\ getCoordsFromLocationString "constructor" = Inherited "constructor"
  /\ getCoordsFromLocationString "constructor" <> Entry puneCoords.
Proof.
  repeat split; try reflexivity. discriminate.
Qed.

(** C9 (the code at the input " __PROTO__ ").  The resolver is invariant
    under normalisation (lemma [getCoords_normalization_invariant]), but
    it does not return a coordinate pair on every input: for a string that
    normalises to "__proto__" it returns [Object.prototype], whose [lat]
    and [lon] are undefined. *)
Theorem resolver_not_always_coordinates :
  getCoordsFromLocationString " __PROTO__ " = Inherited "__proto__"
  /\ (forall c : Coords, getCoordsFromLocationString " __PROTO__ " <> Entry c)
  /\ getLat (getCoordsFromLocationString " __PROTO__ ") = Fulfilled None
  /\ getLon (getCoordsFromLocationString " __PROTO__ ") = Fulfilled None.
Proof.
  repeat split; try reflexivity. intros c. discriminate.
Qed.

End Resolver.

(** ** ForecastForm: the submit guard *)

Section Form.
Import ForecastForm.

(** C5.  The form calls [onSubmit] only when acres > 0, consumption > 0 and
    the trimmed location is not empty, and then with the form data as they
    are.  A click on the submit button calls [onSubmit] only if the submit
    handler does, whatever the browser's validation of the inputs says,
    and not at all when that validation fails.  So the data handed on
    always have acres > 0, and an input violating one of the three
    conditions never reaches [onSubmit]. *)
Theorem form_submits_only_valid_input (formData d : FormInputData) :
  (In (OnSubmit d) (handleSubmit formData)
   <-> d = formData
       /\ gt (acres formData) (ofZ 0) = true
       /\ gt (consumption formData) (ofZ 0) = true
       /\ trim (location formData) <> "")
  /\ (forall constraintsSatisfied : bool,
         In (OnSubmit d) (clickSubmit constraintsSatisfied formData) ->
         constraintsSatisfied = true /\ In (OnSubmit d) (handleSubmit formData))
  /\ (In (OnSubmit d) (handleSubmit formData) -> gt (acres d) (ofZ 0) = true).
Proof.
  assert (H : In (OnSubmit d) (handleSubmit formData)
   <-> d = formData
       /\ gt (acres formData) (ofZ 0) = true
       /\ gt (consumption formData) (ofZ 0) = true
       /\ trim (location formData) <> "").
  { unfold handleSubmit.
    destruct (String.eqb_spec (trim (location formData)) "") as [Hl|Hl];
      destruct (gt (acres formData) (ofZ 0)) eqn:Ha;
      destruct (gt (consumption formData) (ofZ 0)) eqn:Hc;
      cbn [andb negb In]; split;
      try (intros [H|[H|[]]]; discriminate H);
      try (intros [_ [H1 [H2 H3]]]; solve [discriminate | contradiction]).
    - intros [H|[H|[]]]; [discriminate H|]. inversion H; subst. auto.
    - intros [-> _]. right. now left. }
  split; [exact H|]. split.
  - intros v. unfold clickSubmit.
    destruct (submitDisabled formData); [intros []|].
    destruct v; [auto | intros []].
  - intros Hin. apply H in Hin. destruct Hin as [-> [Ha _]]. exact Ha.
Qed.

Lemma form_submits_only_valid_input_witness :
  In (OnSubmit {| location := " Baner "; acres := dec 25 1; consumption := ofZ 500 |})
     (handleSubmit {| location := " Baner "; acres := dec 25 1; consumption := ofZ 500 |})
  /\ ~ In (OnSubmit initialFormData) (handleSubmit initialFormData)
  /\ ~ In (OnSubmit initialFormData) (clickSubmit true initialFormData).
Proof.
  split; [|split].
  - apply (proj1 (form_submits_only_valid_input _ _)).
    repeat split; discriminate.
  - intros H.
    apply (proj1 (form_submits_only_valid_input _ _)) in H.
    destruct H as [_ [H _]]. discriminate H.
  - intros H.
    apply (proj1 (proj2 (form_submits_only_valid_input _ _)) true) in H.
    destruct H as [_ H].
    apply (proj1 (form_submits_only_valid_input _ _)) in H.
    destruct H as [_ [H _]]. discriminate H.
Defined.

End Form.

(** ** ForecastResults: the prediction flow *)

Section Flow.
Import ForecastResults.

Ltac unfold_flow :=
  unfold runFetchPrediction, fetchPrediction, tryFinally, tryCatch, fetch,
    bind, emit, await, throw, ret, setLoading, setError, setPrediction.

(** The guard of [fetchPrediction] lets through exactly the acres that are
    greater than zero. *)
Lemma acres_guard (a : number) :
  negb (truthy a) || le a (ofZ 0) = negb (gt a (ofZ 0)).
Proof. destruct a as [s|s| |s m e]; try destruct s; reflexivity. Qed.

Lemma acres_guard_rejects (a : number) :
  le a (ofZ 0) = true \/ isNaN a = true ->
  negb (truthy a) || le a (ofZ 0) = true.
Proof.
  intros [H|H].
  - rewrite H. apply orb_true_r.
  - destruct a; try discriminate H. reflexivity.
Qed.

(** The world a run ends in when the guard rejects the acres. *)
Lemma run_rejected (net : Network) (data : ForecastData) (st : State) :
  negb (truthy (acres data)) || le (acres data) (ofZ 0) = true ->
  runFetchPrediction net data st
  = {| ui := {| prediction := None; loading := false;
                error := Some "Invalid input: Acres must be a positive number." |};
       trace := [] |}.
Proof.
  intros G. unfold_flow. cbn [ui trace prediction loading error fst snd].
  rewrite G. reflexivity.
Qed.

Ltac flow_step :=
  cbn [ui trace prediction loading error fst snd app negb].

Lemma getProperty_truthy (j : Json) (name : string) (v : Json) :
  getProperty j name = Some v -> jsonTruthy j = true.
Proof. destruct j; simpl; try discriminate; reflexivity. Qed.

Lemma acceptedPrediction_spec (r : Response) (v : number) :
  acceptedPrediction r = Some v
  <-> ok r = true
      /\ exists j, json r = Fulfilled j
                   /\ getProperty j "predicted_kwh_month" = Some (JNumber v)
                   /\ isNaN v = false.
Proof.
  unfold acceptedPrediction. split.
  - destruct (ok r); [|discriminate].
    destruct (json r) as [j|t]; [|discriminate].
    destruct (getProperty j "predicted_kwh_month") as [[| |n| | |]|] eqn:E;
      try discriminate.
    destruct (isNaN n) eqn:N; [discriminate|].
    intros [= <-]. split; [reflexivity|]. now exists j.
  - intros [-> [j [-> [-> ->]]]]. reflexivity.
Qed.

(** The state a run ends in once the guard has let the acres through and
    the endpoint has answered with [r]. *)
Lemma run_answered (net : Network) (data : ForecastData) (st : State) (r : Response) :
  negb (truthy (acres data)) || le (acres data) (ofZ 0) = false ->
  net (predictRequest data) = Fulfilled r ->
  let w := runFetchPrediction net data st in
  prediction (ui w) = acceptedPrediction r
  /\ loading (ui w) = false
  /\ (error (ui w) = None <-> acceptedPrediction r <> None)
  /\ (ok r = false ->
      error (ui w)
      = Some ("API Communication Error: API request failed: "
              ++ decimal (status r) ++ " " ++ statusText r)).
Proof.
  intros G N. unfold acceptedPrediction. unfold_flow. flow_step.
  rewrite G, N. flow_step.
  destruct (ok r); flow_step.
  - destruct (json r) as [j|t]; flow_step.
    + destruct (getProperty j "predicted_kwh_month") as [[| |n| | |]|] eqn:E;
        rewrite ?(getProperty_truthy _ _ _ E);
        [ | | destruct (isNaN n) | | | | ];
        try (destruct (jsonTruthy j));
        flow_step; repeat split; try discriminate; try congruence.
    + repeat split; try discriminate; try congruence.
  - destruct (text r); flow_step; repeat split; try discriminate; try congruence.
Qed.

(** The state a run ends in when [fetch] itself fails. *)
Lemma run_unanswered (net : Network) (data : ForecastData) (st : State) (t : Thrown) :
  negb (truthy (acres data)) || le (acres data) (ofZ 0) = false ->
  net (predictRequest data) = Rejected t ->
  let w := runFetchPrediction net data st in
  prediction (ui w) = None /\ loading (ui w) = false
  /\ exists msg, error (ui w) = Some msg.
Proof.
  intros G N. unfold_flow. flow_step. rewrite G, N. flow_step.
  repeat split. eexists. reflexivity.
Qed.

(** A run whose guard lets the acres through issues exactly one request,
    whatever the network does. *)
Lemma run_requests (net : Network) (data : ForecastData) (st : State) :
  negb (truthy (acres data)) || le (acres data) (ofZ 0) = false ->
  requestsOf (trace (runFetchPrediction net data st)) = [predictRequest data].
Proof.
  intros G. unfold_flow. flow_step. rewrite G.
  destruct (net (predictRequest data)) as [r|t]; flow_step; [|reflexivity].
  destruct (ok r); flow_step.
  - destruct (json r) as [j|t]; flow_step; [|reflexivity].
    destruct (if jsonTruthy j then getProperty j "predicted_kwh_month" else None)
      as [[| |n| | |]|]; [ | | destruct (isNaN n) | | | | ]; reflexivity.
  - destruct (text r); reflexivity.
Qed.

(** The stored prediction is never NaN. *)
Lemma stored_prediction_not_NaN (net : Network) (data : ForecastData) (st : State) (p : number) :
  prediction (ui (runFetchPrediction net data st)) = Some p -> isNaN p = false.
Proof.
  destruct (negb (truthy (acres data)) || le (acres data) (ofZ 0)) eqn:G.
  - rewrite (run_rejected net data st G). discriminate.
  - destruct (net (predictRequest data)) as [r|t] eqn:N.
    + destruct (run_answered net data st r G N) as [-> _].
      intros H. apply acceptedPrediction_spec in H.
      now destruct H as [_ [j [_ [_ H]]]].
    + destruct (run_unanswered net data st t G N) as [-> _]. discriminate.
Qed.

(** C2.  For every forecast whose acres are not greater than zero (zero,
    which is what the form stores for an empty field, negative, or NaN),
    the flow
    stops with the invalid-land-area error before anything else happens:
    the run leaves no event at all, so no request to the [/predict]
    endpoint, and no prediction is stored. *)
Theorem invalid_acres_rejected_before_any_request
  (net : Network) (data : ForecastData) (st : State) :
  le (acres data) (ofZ 0) = true \/ isNaN (acres data) = true ->
  let w := runFetchPrediction net data st in
  trace w = []
  /\ requestsOf (trace w) = []
  /\ prediction (ui w) = None
  /\ error (ui w) = Some "Invalid input: Acres must be a positive number."
  /\ loading (ui w) = false.
Proof.
  intros H. cbv zeta.
  rewrite (run_rejected net data st (acres_guard_rejects _ H)).
  repeat split.
Qed.

Lemma invalid_acres_rejected_before_any_request_witness :
  let data := {| latitude := Some (dec 185204 4); longitude := Some (dec 738567 4);
                 acres := ofZ (-2); consumption := ofZ 500; location := "Pune" |} in
  let w := runFetchPrediction (fun _ => Rejected OtherThrown) data initialState in
  trace w = []
  /\ requestsOf (trace w) = []
  /\ prediction (ui w) = None
  /\ error (ui w) = Some "Invalid input: Acres must be a positive number."
  /\ loading (ui w) = false.
Proof.
  intros data.
  apply (invalid_acres_rejected_before_any_request
           (fun _ => Rejected OtherThrown) data initialState).
  left. reflexivity.
Defined.

(** C4.  Once a request has gone out (acres > 0) and the endpoint has
    answered, the client stores a prediction [v] exactly when the status is
    2xx and the parsed body has a [predicted_kwh_month] property that is
    the Number [v], not NaN; the error state is then clear.  In every other
    case, a status outside 2xx or a 2xx body without such a property, the
    stored prediction stays null and the error state is entered; for a
    status outside 2xx the message names the status.  Loading ends either
    way. *)
Theorem prediction_stored_iff_response_valid
  (net : Network) (data : ForecastData) (st : State) (r : Response) :
  gt (acres data) (ofZ 0) = true ->
  net (predictRequest data) = Fulfilled r ->
  let w := runFetchPrediction net data st in
  (forall v : number,
      prediction (ui w) = Some v
      <-> ok r = true
          /\ exists j, json r = Fulfilled j
                       /\ getProperty j "predicted_kwh_month" = Some (JNumber v)
                       /\ isNaN v = false)
  /\ (forall v : number, prediction (ui w) = Some v -> error (ui w) = None)
  /\ (prediction (ui w) = None -> exists msg, error (ui w) = Some msg)
  /\ (ok r = false ->
      prediction (ui w) = None
      /\ error (ui w)
         = Some ("API Communication Error: API request failed: "
                 ++ decimal (status r) ++ " " ++ statusText r))
  /\ loading (ui w) = false.
Proof.
  intros Ha N.
  assert (G : negb (truthy (acres data)) || le (acres data) (ofZ 0) = false).
  { rewrite acres_guard, Ha. reflexivity. }
  destruct (run_answered net data st r G N) as [HP [HL [HE HS]]].
  cbv zeta. rewrite HP.
  split; [|split; [|split; [|split]]].
  - intros v. apply acceptedPrediction_spec.
  - intros v Hv. apply HE. congruence.
  - intros Hn. destruct (error (ui (runFetchPrediction net data st))) as [msg|].
    + now exists msg.
    + exfalso. now apply (proj1 HE).
  - intros Hok. split; [|now apply HS].
    unfold acceptedPrediction. now rewrite Hok.
  - exact HL.
Qed.

Lemma prediction_stored_iff_response_valid_witness :
  let data := {| latitude := Some (dec 185204 4); longitude := Some (dec 738567 4);
                 acres := ofZ 5; consumption := ofZ 500; location := "Pune" |} in
  let good := {| status := 200; statusText := "OK"; text := Fulfilled "";
                 json := Fulfilled (JObject [("predicted_kwh_month", JNumber (ofZ 3040))]) |} in
  let bad := {| status := 500; statusText := "INTERNAL SERVER ERROR";
                text := Fulfilled "";
                json := Fulfilled (JObject [("predicted_kwh_month", JNumber (ofZ 3040))]) |} in
  prediction (ui (runFetchPrediction (fun _ => Fulfilled good) data initialState))
  = Some (ofZ 3040)
  /\ prediction (ui (runFetchPrediction (fun _ => Fulfilled bad) data initialState))
     = None.
Proof.
  intros data good bad. split.
  - apply (proj1 (prediction_stored_iff_response_valid
                    (fun _ => Fulfilled good) data initialState good
                    eq_refl eq_refl)).
    split; [reflexivity|]. eexists. repeat split; reflexivity.
  - apply (proj1 (proj2 (proj2 (proj2 (prediction_stored_iff_response_valid
                    (fun _ => Fulfilled bad) data initialState bad
                    eq_refl eq_refl))))).
    reflexivity.
Defined.

(** A table entry goes into the request body as it is. *)
Lemma Serialize_table_entries :
  Forall (fun kc => SerializeNumber (Index.lat (snd kc)) = JNumber (Index.lat (snd kc))
                    /\ SerializeNumber (Index.lon (snd kc)) = JNumber (Index.lon (snd kc)))
         Index.locationLookup.
Proof. repeat constructor. Qed.

Lemma Get_Entry_In (k : string) (c : Index.Coords) :
  Index.Get k = Index.Entry c -> In (k, c) Index.locationLookup.
Proof.
  unfold Index.Get. destruct (assoc k Index.locationLookup) as [c'|] eqn:E.
  - intros [= <-]. now apply assoc_In.
  - destruct (existsb _ _); discriminate.
Qed.

Lemma getCoords_Entry_In (s : string) (c : Index.Coords) :
  Index.getCoordsFromLocationString s = Index.Entry c ->
  exists k, In (k, c) Index.locationLookup.
Proof.
  unfold Index.getCoordsFromLocationString.
  destruct (Index.truthyValue _).
  - intros H. eexists. exact (Get_Entry_In _ _ H).
  - destruct (Index.firstContained _ _) as [v|] eqn:F.
    + apply firstContained_Some in F. destruct F as [k [_ [_ ->]]].
      intros H. eexists. exact (Get_Entry_In _ _ H).
    + intros H. eexists. exact (Get_Entry_In _ _ H).
Qed.

(** When the location resolves to an entry of the table and the acres are
    finite, a submitted forecast issues one request, whose body has exactly
    the properties latitude, longitude and acres, with the entry's
    coordinates and the form's acres. *)
Lemma request_body_of_resolved_forecast
  (net : Network) (fd : ForecastForm.FormInputData) (st0 : Index.State)
  (c : Index.Coords) :
  Index.getCoordsFromLocationString (ForecastForm.location fd) = Index.Entry c ->
  gt (ForecastForm.acres fd) (ofZ 0) = true ->
  isFinite (ForecastForm.acres fd) = true ->
  exists w, Index.submitForecast net fd st0 = Some w
            /\ requestsOf (trace w)
               = [ {| url := "http://127.0.0.1:5000/predict";
                      method := "POST";
                      headers := [("Content-Type", "application/json")];
                      body := JObject [ ("latitude", JNumber (Index.lat c));
                                        ("longitude", JNumber (Index.lon c));
                                        ("acres", JNumber (ForecastForm.acres fd)) ] |} ].
Proof.
  intros Hc Ha Hf. unfold Index.submitForecast, Index.handleFormSubmit.
  rewrite Hc. cbn [Index.getLat Index.getLon Index.resultsData Index.currentView
                   Index.forecastData].
  eexists. split; [reflexivity|].
  rewrite run_requests by (cbn [acres]; rewrite acres_guard, Ha; reflexivity).
  unfold predictRequest, requestData, JSON_stringify, SerializeProperty.
  cbn [latitude longitude acres flat_map fst snd app apiUrl].
  destruct (getCoords_Entry_In _ _ Hc) as [k Hin].
  pose proof (proj1 (Forall_forall _ _) Serialize_table_entries _ Hin) as [Hla Hlo].
  cbn [snd] in Hla, Hlo. rewrite Hla, Hlo.
  destruct (ForecastForm.acres fd) as [s|s| |s m e]; try discriminate Hf;
    [destruct s; discriminate Ha | reflexivity].
Qed.

(** C3 (the code at the location "constructor").  The form accepts the
    input, and the forecast is submitted; the resolver returns the
    inherited [constructor] function for it, whose [lat] and [lon] are
    undefined, and [JSON.stringify] leaves properties with an undefined
    value out: the body sent has the single property acres. *)
Theorem request_body_loses_coordinates (net : Network) :
  let input := {| ForecastForm.location := "constructor";
                  ForecastForm.acres := ofZ 5;
                  ForecastForm.consumption := ofZ 100 |} in
  In (ForecastForm.OnSubmit input) (ForecastForm.clickSubmit true input)
  /\ exists w, Index.submitForecast net input Index.initialState = Some w
               /\ map body (requestsOf (trace w))
                  = [ JObject [ ("acres", JNumber (ofZ 5)) ] ].
Proof.
  intros input. split.
  - right. now left.
  - eexists. split; [reflexivity|].
    rewrite run_requests by reflexivity. reflexivity.
Qed.

End Flow.

(** ** Numbers: no NaN out of thin air *)

Section NumberFacts.

Lemma shr_1_nonneg (mrs : shr_record) : 0 <= shr_m mrs -> 0 <= shr_m (shr_1 mrs).
Proof.
  destruct mrs as [m r s]. destruct m as [|p|p]; simpl; intros H.
  - lia.
  - destruct p; simpl; lia.
  - lia.
Qed.

Lemma iter_pos_invariant {A : Type} (P : A -> Prop) (f : A -> A) :
  (forall x, P x -> P (f x)) -> forall p x, P x -> P (iter_pos f p x).
Proof.
  intros Hf. induction p as [p IH|p IH|]; simpl; intros x Hx; auto.
Qed.

Lemma shr_nonneg (mrs : shr_record) (e n : Z) :
  0 <= shr_m mrs -> 0 <= shr_m (fst (shr mrs e n)).
Proof.
  intros H. destruct n as [|p|p]; simpl; auto.
  apply (iter_pos_invariant (fun r => 0 <= shr_m r)); auto using shr_1_nonneg.
Qed.

Lemma shr_fexp_nonneg (m e : Z) (l : location) :
  0 <= m -> 0 <= shr_m (fst (shr_fexp prec emax m e l)).
Proof.
  intros H. unfold shr_fexp. apply shr_nonneg.
  destruct l as [|[| |]]; exact H.
Qed.

Lemma round_nearest_even_nonneg (m : Z) (l : location) :
  0 <= m -> 0 <= round_nearest_even m l.
Proof.
  intros H. destruct l as [|[| |]]; simpl; try lia.
  destruct (Z.even m); lia.
Qed.

(** Rounding a non-negative mantissa never yields NaN. *)
Lemma binary_round_aux_not_NaN (sx : bool) (mx ex : Z) (lx : location) :
  0 <= mx -> isNaN (binary_round_aux prec emax sx mx ex lx) = false.
Proof.
  intros H. unfold binary_round_aux.
  pose proof (shr_fexp_nonneg mx ex lx H) as H1.
  destruct (shr_fexp prec emax mx ex lx) as [mrs' e']. simpl in H1.
  pose proof (shr_fexp_nonneg
                (round_nearest_even (shr_m mrs') (loc_of_shr_record mrs')) e'
                loc_Exact (round_nearest_even_nonneg _ _ H1)) as H2.
  destruct (shr_fexp prec emax _ e' loc_Exact) as [mrs'' e'']. simpl in H2.
  destruct (shr_m mrs'') as [|p|p].
  - reflexivity.
  - destruct (e'' <=? emax - prec); reflexivity.
  - lia.
Qed.

Lemma ofZ_not_NaN (z : Z) : isNaN (ofZ z) = false.
Proof.
  unfold ofZ, binary_normalize, binary_round.
  destruct z as [|p|p]; [reflexivity| |];
    destruct (shl_align _ _ _) as [mz ez]; apply binary_round_aux_not_NaN; lia.
Qed.

Lemma MathRound_not_NaN (x : number) : isNaN x = false -> isNaN (MathRound x) = false.
Proof.
  destruct x as [s|s| |s m e]; intros H; try exact H.
  unfold MathRound. destruct (0 <=? e); [reflexivity|].
  destruct ((2 * cond_Zopp s (Z.pos m) + 2 ^ (- e)) / 2 ^ (- e + 1)).
  - reflexivity.
  - apply ofZ_not_NaN.
  - apply ofZ_not_NaN.
Qed.

(** Multiplying by a finite non-zero constant keeps NaN out. *)
Lemma mul_finite_not_NaN (x : number) (s : bool) (m : positive) (e : Z) :
  isNaN x = false -> isNaN (mul x (S754_finite s m e)) = false.
Proof.
  destruct x as [sx|sx| |sx mx ex]; simpl; auto.
  intros _. apply binary_round_aux_not_NaN. lia.
Qed.

Lemma SFdiv_core_binary_nonneg (mx my : positive) (ex ey : Z) :
  0 <= fst (fst (SFdiv_core_binary prec emax (Z.pos mx) ex (Z.pos my) ey)).
Proof.
  unfold SFdiv_core_binary.
  set (s := ex - ey - _).
  set (m' := match s with Z.pos _ => _ | Z0 => _ | Z.neg _ => _ end).
  assert (Hm : 0 <= m').
  { subst m'. destruct s; try lia. apply Z.shiftl_nonneg. lia. }
  pose proof (Z.div_pos m' (Z.pos my) Hm ltac:(lia)) as Hq.
  unfold Z.div in Hq.
  destruct (Z.div_eucl m' (Z.pos my)) as [q r]. exact Hq.
Qed.




End NumberFacts.

(** ** ForecastResults: the coverage percentage *)

Section Coverage.
Import ForecastResults.




(** The lemma [coveragePercent_range] needs its proviso when the component
    is taken on its own, with a consumption that the form cannot store: a
    response body [{"predicted_kwh_month": 1e999}] parses to Infinity,
    which is stored; with a consumption of Infinity the quotient
    Infinity / Infinity is NaN, and NaN goes through [Math.round],
    [Math.min] and [Math.max] unchanged. *)
Lemma coverage_NaN_when_both_infinite :
  let data := {| latitude := Some (dec 185204 4); longitude := Some (dec 738567 4);
                 acres := ofZ 5; consumption := Infinity; location := "Pune" |} in
  let r := {| status := 200; statusText := "OK"; text := Fulfilled "";
              json := Fulfilled (JObject [("predicted_kwh_month", JNumber Infinity)]) |} in
  let st := ui (runFetchPrediction (fun _ => Fulfilled r) data initialState) in
  resultsDisplayed st = true
  /\ gt (consumption data) (ofZ 0) = true
  /\ coveragePercent data st = NaN
  /\ ~ (le (ofZ 0) (coveragePercent data st) = true
        /\ le (coveragePercent data st) (ofZ 100) = true).
Proof.
  intros data r st. repeat split. intros [H _]. discriminate H.
Qed.

End Coverage.

(** ** Backend: the monthly estimate *)

Section Estimator.
Import Backend.
Local Open Scope Q_scope.

Lemma fold_left_Qplus (xs : list Q) (a : Q) :
  fold_left Qplus xs a == a + sumOf xs.
Proof.
  revert a. induction xs as [|x xs IH]; intros a; simpl.
  - ring.
  - rewrite IH. ring.
Qed.

Lemma mean_arithmeticMean (xs : list Q) : mean xs == arithmeticMean xs.
Proof.
  unfold mean, arithmeticMean, total. rewrite fold_left_Qplus.
  now rewrite Qplus_0_l.
Qed.

Lemma sumOf_constant (q : Q) (ys : list DailyYield) :
  (forall y, In y ys -> kwh_per_acre y == q) ->
  sumOf (map kwh_per_acre ys) == inject_Z (Z.of_nat (List.length ys)) * q.
Proof.
  induction ys as [|y ys IH]; intros H.
  - simpl. ring.
  - cbn [map sumOf List.length]. rewrite IH by (intros z Hz; apply H; now right).
    rewrite (H y) by now left.
    rewrite Nat2Z.inj_succ. unfold Z.succ. rewrite inject_Z_plus. ring.
Qed.

Lemma length_nonzero {A : Type} (xs : list A) :
  xs <> [] -> ~ inject_Z (Z.of_nat (List.length xs)) == 0.
Proof.
  destruct xs as [|x xs]; [congruence|]. intros _ H.
  unfold Qeq in H. simpl in H. lia.
Qed.

(** C6.  For every non-empty sequence of daily yields and every acres > 0
    the estimator succeeds, and the monthly estimate is the arithmetic mean
    of the days' kWh per acre, times the acres, times 30.4.  In particular
    a yield of 20 kWh per acre on every forecast day and 5 acres give
    3040 kWh per month. *)
Theorem monthly_estimate_is_mean_times_acres_times_30_4 :
  (forall (daily_yields : list DailyYield) (acres : Q),
      daily_yields <> [] -> 0 < acres ->
      exists m, estimate daily_yields acres = Ok m
                /\ predicted_kwh_month m
                   == arithmeticMean (map kwh_per_acre daily_yields)
                      * acres * (304 # 10))
  /\ (forall daily_yields : list DailyYield,
         daily_yields <> [] ->
         (forall y, In y daily_yields -> kwh_per_acre y == 20) ->
         exists m, estimate daily_yields 5 = Ok m
                   /\ predicted_kwh_month m == 3040).
Proof.
  assert (G : forall (daily_yields : list DailyYield) (acres : Q),
      daily_yields <> [] ->
      exists m, estimate daily_yields acres = Ok m
                /\ predicted_kwh_month m
                   == arithmeticMean (map kwh_per_acre daily_yields)
                      * acres * (304 # 10)).
  { intros ys acres Hne. destruct ys as [|y ys]; [congruence|].
    eexists. split; [reflexivity|].
    cbn [predicted_kwh_month]. rewrite mean_arithmeticMean.
    unfold DAYS_PER_MONTH. reflexivity. }
  split.
  - intros ys acres Hne _. now apply G.
  - intros ys Hne H20. destruct (G ys 5 Hne) as [m [Hm Hv]].
    exists m. split; [exact Hm|]. rewrite Hv.
    unfold arithmeticMean. rewrite (sumOf_constant 20 ys H20), length_map.
    pose proof (length_nonzero ys Hne) as Hn.
    field. exact Hn.
Qed.

Lemma monthly_estimate_is_mean_times_acres_times_30_4_witness :
  let day d := {| yield_date := (2025, 5, d)%Z; kwh_per_acre := 20 |} in
  let week := map day [24; 25; 26; 27; 28; 29; 30]%Z in
  exists m, estimate week 5 = Ok m /\ predicted_kwh_month m == 3040.
Proof.
  intros day week.
  apply (proj2 monthly_estimate_is_mean_times_acres_times_30_4 week).
  - discriminate.
  - intros y Hy. simpl in Hy.
    repeat (destruct Hy as [<-|Hy]; [reflexivity|]). destruct Hy.
Defined.

(** C7.  On the empty input both stages fail with [EmptyForecastError]:
    the aggregator on an empty hourly sequence, and the estimator on an
    empty sequence of daily yields, whatever the acres; no estimate comes
    out of zero samples. *)
Theorem empty_forecast_is_an_error :
  aggregate [] = Err EmptyForecastError
  /\ (forall acres : Q, estimate [] acres = Err EmptyForecastError)
  /\ (forall (acres : Q) (m : MonthlyEstimate), estimate [] acres <> Ok m).
Proof.
  split; [reflexivity|]. split; [reflexivity|]. intros acres m. discriminate.
Qed.

End Estimator.

(* ================================================================== *)
(** * Part III: further properties of the client *)
(* ================================================================== *)

(** ** ForecastForm: the input handlers *)

Section FormInputs.
Import ForecastForm.

Variable parseFloat : string -> number.
Variable parseInt10 : string -> number.
Variable parseInt : string -> number.
Variable NumberToString : number -> string.

Local Abbreviation onChange' := (onChange parseFloat parseInt10 parseInt NumberToString).
Local Abbreviation afterInputs' := (afterInputs parseFloat parseInt10 parseInt NumberToString).

Lemma guarded_number_not_NaN (n : number) :
  isNaN (if isNaN n then ofZ 0 else n) = false.
Proof. destruct n; reflexivity. Qed.

Lemma onChange_keeps_numbers (ev : InputEvent) (prev : FormInputData) :
  isNaN (acres prev) = false /\ isNaN (consumption prev) = false ->
  isNaN (acres (onChange' ev prev)) = false
  /\ isNaN (consumption (onChange' ev prev)) = false.
Proof.
  intros [Ha Hc]. destruct ev as [raw|raw|raw]; cbn; auto using guarded_number_not_NaN.
Qed.

(** X1.  Whatever the user types and whatever the host's parsers make of
    it, the numeric fields of the form data never hold NaN.  The handler
    stores 0 in place of a NaN: for the acres, when [parseFloat] of the
    text is NaN; for the consumption, when [parseInt(., 10)] is NaN on the
    string form of [parseInt(text) || 0], which is what the handler is
    passed.  Otherwise the parsed Number is stored as it is. *)
Theorem form_numbers_never_NaN (evs : list InputEvent) :
  (isNaN (acres (afterInputs' evs initialFormData)) = false
   /\ isNaN (consumption (afterInputs' evs initialFormData)) = false)
  /\ (forall (raw : string) (prev : FormInputData),
         acres (onChange' (AcresInput raw) prev)
         = if isNaN (parseFloat raw) then ofZ 0 else parseFloat raw)
  /\ (forall (raw : string) (prev : FormInputData),
         let passed :=
           NumberToString (if truthy (parseInt raw) then parseInt raw else ofZ 0) in
         consumption (onChange' (ConsumptionInput raw) prev)
         = if isNaN (parseInt10 passed) then ofZ 0 else parseInt10 passed).
Proof.
  split; [|split; [reflexivity | reflexivity]].
  unfold afterInputs.
  assert (G : forall fd, isNaN (acres fd) = false /\ isNaN (consumption fd) = false ->
              isNaN (acres (fold_left (fun fd ev => onChange' ev fd) evs fd)) = false
              /\ isNaN (consumption (fold_left (fun fd ev => onChange' ev fd) evs fd)) = false).
  { induction evs as [|ev evs IH]; intros fd H; simpl.
    - exact H.
    - apply IH, onChange_keeps_numbers, H. }
  apply G. split; reflexivity.
Qed.

(** X2.  An acres input that does not parse to a Number above zero (an
    empty or unreadable text, zero, a negative number) leaves the form
    unable to submit: the button is disabled and neither the submit
    handler nor a click calls [onSubmit], whatever the other fields hold
    and whatever the browser's validation says. *)
Theorem acres_input_not_positive_blocks_submit
  (raw : string) (prev d : FormInputData) (constraintsSatisfied : bool) :
  gt (parseFloat raw) (ofZ 0) = false ->
  submitDisabled (onChange' (AcresInput raw) prev) = true
  /\ ~ In (OnSubmit d) (handleSubmit (onChange' (AcresInput raw) prev))
  /\ ~ In (OnSubmit d)
          (clickSubmit constraintsSatisfied (onChange' (AcresInput raw) prev)).
Proof.
  intros H.
  assert (G : gt (acres (onChange' (AcresInput raw) prev)) (ofZ 0) = false).
  { cbn. destruct (parseFloat raw) eqn:E; cbn; try exact H; reflexivity. }
  unfold clickSubmit, submitDisabled, handleSubmit. rewrite G. cbn.
  repeat split; try tauto.
  intros [F|[F|[]]]; discriminate F.
Qed.

End FormInputs.

Lemma acres_input_not_positive_blocks_submit_witness :
  let parseFloat := fun s : string => if String.eqb s "2.5" then dec 25 1 else NaN in
  let after := ForecastForm.onChange parseFloat (fun _ => ofZ 500) (fun _ => ofZ 500)
                 (fun _ => "500") (ForecastForm.AcresInput "two")
                 {| ForecastForm.location := "Baner";
                    ForecastForm.acres := dec 25 1;
                    ForecastForm.consumption := ofZ 500 |} in
  ForecastForm.submitDisabled after = true
  /\ ~ In (ForecastForm.OnSubmit after) (ForecastForm.handleSubmit after)
  /\ ~ In (ForecastForm.OnSubmit after) (ForecastForm.clickSubmit true after).
Proof.
  intros parseFloat after.
  apply (acres_input_not_positive_blocks_submit parseFloat (fun _ => ofZ 500)
           (fun _ => ofZ 500) (fun _ => "500") "two").
  reflexivity.
Defined.

(** ** Index: more on the resolver *)

Section ResolverMore.
Import Index.

Lemma In_assoc (k : string) (c : Coords) :
  In (k, c) locationLookup -> assoc k locationLookup = Some c.
Proof.
  intros Hin. apply in_split in Hin. destruct Hin as [pre [post E]].
  rewrite E. apply assoc_first.
  pose proof locationLookup_keys_NoDup as N. unfold forInKeys in N.
  rewrite E, map_app in N. simpl in N.
  apply NoDup_remove_2 in N. intros Hin. apply N, in_or_app. now left.
Qed.

Lemma getCoords_contains_pune (s : string) :
  assoc (normalized s) locationLookup = None ->
  includes (normalized s) "pune" = true ->
  getCoordsFromLocationString s = Entry puneCoords.
Proof.
  intros Hnone Hp.
  assert (Hn : inheritedName (normalized s) = false).
  { destruct (inheritedName (normalized s)) eqn:I; [|reflexivity].
    rewrite (inheritedName_includes_no_key _ "pune" I) in Hp; [discriminate|].
    now left. }
  unfold getCoordsFromLocationString. fold (normalized s).
  rewrite (Get_absent _ Hnone Hn). cbn [truthyValue].
  change forInKeys with ([] ++ "pune" :: tl forInKeys)%list.
  rewrite firstContained_first; [reflexivity | exact Hp | intros k' []].
Qed.

(** X3.  The resolver looks at the normalised form of its input only: two
    inputs with the same normalised form resolve alike, so trimming the
    input, lower-casing it, or both, beforehand changes nothing. *)
Theorem resolver_depends_on_normalized_form_only :
  (forall s t : string,
      normalized s = normalized t ->
      getCoordsFromLocationString s = getCoordsFromLocationString t)
  /\ (forall s : string,
         getCoordsFromLocationString (trim s) = getCoordsFromLocationString s
         /\ getCoordsFromLocationString (toLowerCase s) = getCoordsFromLocationString s
         /\ getCoordsFromLocationString (toLowerCase (trim s))
            = getCoordsFromLocationString s).
Proof.
  assert (G : forall s t : string,
      normalized s = normalized t ->
      getCoordsFromLocationString s = getCoordsFromLocationString t).
  { intros s t E. unfold getCoordsFromLocationString.
    fold (normalized s). fold (normalized t). now rewrite E. }
  split; [exact G|]. intros s. split; [|split]; apply G; unfold normalized.
  - now rewrite trim_idempotent.
  - now rewrite trim_toLowerCase, toLowerCase_idempotent.
  - apply normalize_idempotent.
Qed.

(** X4.  Every neighbourhood of the table resolves to its own coordinates
    when it is given by its name alone, in any letter case and with any
    white space around it; this holds also for the names that contain
    another one ("pune station", "pimpri-chinchwad"). *)
Theorem declared_name_resolves_to_its_entry (s k : string) (c : Coords) :
  In (k, c) locationLookup ->
  normalized s = k ->
  getCoordsFromLocationString s = Entry c.
Proof.
  intros Hin Hs. unfold getCoordsFromLocationString. fold (normalized s).
  rewrite Hs, (Get_own _ _ (In_assoc _ _ Hin)). reflexivity.
Qed.

Lemma declared_name_resolves_to_its_entry_witness :
  getCoordsFromLocationString "  Pune Station " = Entry (entry 185283 738754).
Proof.
  apply (declared_name_resolves_to_its_entry "  Pune Station " "pune station").
  - do 11 right. now left.
  - reflexivity.
Defined.

Lemma getCoords_inherited (s : string) :
  normalized s = "constructor" \/ normalized s = "__proto__" ->
  getCoordsFromLocationString s = Inherited (normalized s).
Proof.
  unfold getCoordsFromLocationString. fold (normalized s).
  intros [-> | ->]; reflexivity.
Qed.

Lemma getCoords_entry (s : string) :
  inheritedName (normalized s) = false ->
  exists k c, In (k, c) locationLookup /\ getCoordsFromLocationString s = Entry c.
Proof.
  intros Hn.
  destruct (getCoords_three_way s Hn) as [[c [E R]]|[[_ [k [c [Hin [_ R]]]]]|[_ [_ R]]]].
  - exists (normalized s), c. split; [now apply assoc_In | exact R].
  - now exists k, c.
  - exists "pune", puneCoords. split; [now left | exact R].
Qed.

Lemma getCoords_defined (s : string) : getCoordsFromLocationString s <> Undefined.
Proof.
  destruct (inheritedName (normalized s)) eqn:I.
  - rewrite (getCoords_inherited s (inheritedName_normalized s I)). discriminate.
  - destruct (getCoords_entry s I) as [k [c [_ ->]]]. discriminate.
Qed.

(** X5.  The resolver returns an entry of the table on every input but
    those that normalise to "constructor" or "__proto__", and on those two
    it returns the inherited property; it never returns undefined. *)
Theorem resolver_result_is_an_entry_but_for_two_names (s : string) :
  ((exists k c, In (k, c) locationLookup /\ getCoordsFromLocationString s = Entry c)
   <-> normalized s <> "constructor" /\ normalized s <> "__proto__")
  /\ (normalized s = "constructor" \/ normalized s = "__proto__" ->
      getCoordsFromLocationString s = Inherited (normalized s))
  /\ getCoordsFromLocationString s <> Undefined.
Proof.
  split; [|split].
  - split.
    + intros [k [c [_ R]]]. split; intros E.
      * rewrite (getCoords_inherited s (or_introl E)) in R. discriminate R.
      * rewrite (getCoords_inherited s (or_intror E)) in R. discriminate R.
    + intros [H1 H2]. apply getCoords_entry.
      destruct (inheritedName (normalized s)) eqn:I; [|reflexivity].
      destruct (inheritedName_normalized s I); contradiction.
  - apply getCoords_inherited.
  - apply getCoords_defined.
Qed.

(** X6.  A location that names no neighbourhood of the table (no key
    occurs in its normalised form) resolves to the default, central Pune,
    unless it normalises to "constructor" or "__proto__". *)
Theorem unlisted_location_gets_default (s : string) :
  (forall k, In k forInKeys -> includes (normalized s) k = false) ->
  normalized s <> "constructor" -> normalized s <> "__proto__" ->
  getCoordsFromLocationString s = Entry puneCoords.
Proof.
  intros Hno H1 H2.
  assert (Hn : inheritedName (normalized s) = false).
  { destruct (inheritedName (normalized s)) eqn:I; [|reflexivity].
    destruct (inheritedName_normalized s I); contradiction. }
  destruct (getCoords_three_way s Hn) as [[c [E R]]|[[_ [k [c [Hin [Hk R]]]]]|[_ [_ R]]]].
  - exfalso. apply assoc_In in E.
    assert (Hkey : In (normalized s) forInKeys).
    { unfold forInKeys. apply in_map_iff. now exists (normalized s, c). }
    pose proof (Hno _ Hkey) as F.
    assert (T : includes (normalized s) (normalized s) = true).
    { apply includes_spec. exists "", "". simpl.
      clear. induction (normalized s) as [|a t IH]; simpl; [reflexivity|now rewrite <- IH]. }
    congruence.
  - exfalso. rewrite Hno in Hk; [discriminate|].
    unfold forInKeys. apply in_map_iff. now exists (k, c).
  - exact R.
Qed.

Lemma unlisted_location_gets_default_witness :
  getCoordsFromLocationString "Mumbai" = Entry puneCoords.
Proof.
  apply unlisted_location_gets_default.
  - apply Forall_forall. repeat constructor.
  - discriminate.
  - discriminate.
Defined.

(** X7.  The entry of "pune station" is reached by that exact name only:
    inside a longer text the name is shadowed by "pune", which is declared
    first, and the text resolves to central Pune. *)
Theorem pune_station_only_by_exact_name (s : string) :
  (getCoordsFromLocationString s = Entry (entry 185283 738754)
   <-> normalized s = "pune station")
  /\ (normalized s <> "pune station" ->
      includes (normalized s) "pune station" = true ->
      getCoordsFromLocationString s = Entry puneCoords).
Proof.
  assert (U : forall k, In (k, entry 185283 738754) locationLookup -> k = "pune station").
  { intros k H. unfold locationLookup in H. simpl in H.
    repeat (destruct H as [H|H];
            [ first [ now inversion H | (exfalso; vm_compute in H; discriminate H) ] | ]).
    destruct H. }
  assert (S : normalized s <> "pune station" ->
              includes (normalized s) "pune station" = true ->
              getCoordsFromLocationString s = Entry puneCoords).
  { intros Hne Hinc.
    assert (Hp : includes (normalized s) "pune" = true).
    { apply includes_spec in Hinc. destruct Hinc as [a [b E]].
      apply includes_spec. exists a, (" station" ++ b)%string.
      etransitivity; [exact E|].
      clear. induction a as [|x a IH]; [reflexivity | simpl; f_equal; exact IH]. }
    destruct (assoc (normalized s) locationLookup) as [c|] eqn:E.
    - apply assoc_In in E.
      unfold getCoordsFromLocationString. fold (normalized s).
      unfold locationLookup in E. simpl in E.
      repeat (destruct E as [E|E];
              [ injection E as E1 E2; rewrite <- E1 in *;
                first [ discriminate Hinc | congruence ] | ]).
      destruct E.
    - now apply getCoords_contains_pune. }
  split; [|exact S]. split.
  - intros R.
    destruct (string_dec (normalized s) "pune station") as [E|Hne]; [exact E|].
    exfalso.
    destruct (inheritedName (normalized s)) eqn:I.
    + rewrite (getCoords_inherited s (inheritedName_normalized s I)) in R.
      discriminate R.
    + destruct (getCoords_three_way s I) as [[c [E R']]|[[Hnone [k [c [Hin [Hk R']]]]]|[_ [_ R']]]].
      * rewrite R in R'. injection R' as <-. apply assoc_In, U in E. contradiction.
      * rewrite R in R'. injection R' as <-. apply U in Hin. subst k.
        rewrite (S Hne Hk) in R. vm_compute in R. discriminate R.
      * rewrite R in R'. vm_compute in R'. discriminate R'.
  - intros E. unfold getCoordsFromLocationString. fold (normalized s).
    rewrite E. reflexivity.
Qed.

End ResolverMore.

(** ** Index: the page *)

Section Page.
Import Index.

Lemma handleFormSubmit_total (data : ForecastForm.FormInputData) (st : State) :
  exists st', handleFormSubmit data st = Fulfilled st'.
Proof.
  unfold handleFormSubmit.
  pose proof (getCoords_defined (ForecastForm.location data)) as Hdef.
  destruct (getCoordsFromLocationString (ForecastForm.location data)) as [|c|n];
    [contradiction | |]; cbn [getLat getLon]; eexists; reflexivity.
Qed.

Lemma handleFormSubmit_Fulfilled
  (data : ForecastForm.FormInputData) (st st' : State) :
  handleFormSubmit data st = Fulfilled st' ->
  currentView st' = results
  /\ exists d, forecastData st' = Some d
               /\ ForecastResults.acres d = ForecastForm.acres data
               /\ ForecastResults.consumption d = ForecastForm.consumption data
               /\ ForecastResults.location d = ForecastForm.location data.
Proof.
  unfold handleFormSubmit.
  destruct (getCoordsFromLocationString (ForecastForm.location data)) as [|c|n];
    cbn [getLat getLon]; intros [= <-]; (split; [reflexivity|]);
    eexists; repeat split.
Qed.

(** X8.  The page's submit handler never throws, whatever the form hands
    over: it always switches to the results view, and the data it stores
    carry the form's acres, consumption and location string unchanged (the
    location as typed, not its normalised form). *)
Theorem handleFormSubmit_always_shows_results
  (data : ForecastForm.FormInputData) (st : State) :
  exists (st' : State) (d : ForecastResults.ForecastData),
    handleFormSubmit data st = Fulfilled st'
    /\ currentView st' = results
    /\ forecastData st' = Some d
    /\ resultsData st' = Some d
    /\ ForecastResults.acres d = ForecastForm.acres data
    /\ ForecastResults.consumption d = ForecastForm.consumption data
    /\ ForecastResults.location d = ForecastForm.location data.
Proof.
  destruct (handleFormSubmit_total data st) as [st' E].
  destruct (handleFormSubmit_Fulfilled data st st' E) as [V [d [F [A [C L]]]]].
  exists st', d. repeat split; auto.
  unfold resultsData. now rewrite V.
Qed.

Lemma form_submits_valid (formData d : ForecastForm.FormInputData) :
  In (ForecastForm.OnSubmit d) (ForecastForm.handleSubmit formData) ->
  gt (ForecastForm.acres d) (ofZ 0) = true
  /\ gt (ForecastForm.consumption d) (ofZ 0) = true
  /\ trim (ForecastForm.location d) <> "".
Proof.
  unfold ForecastForm.handleSubmit.
  destruct (gt (ForecastForm.acres formData) (ofZ 0)) eqn:Ha;
    destruct (gt (ForecastForm.consumption formData) (ofZ 0)) eqn:Hc;
    destruct (String.eqb_spec (trim (ForecastForm.location formData)) "") as [Hl|Hl];
    cbn [andb negb In];
    intros [H|[H|[]]]; try discriminate H.
  injection H as <-. auto.
Qed.

(** What holds of the forecast data in every page state. *)
Lemma pageStep_keeps_valid_data (st st' : State) :
  pageStep st st' ->
  ((currentView st = hero -> forecastData st = None)
   /\ (currentView st = results -> forecastData st <> None)
   /\ (forall d, forecastData st = Some d ->
         gt (ForecastResults.acres d) (ofZ 0) = true
         /\ gt (ForecastResults.consumption d) (ofZ 0) = true
         /\ trim (ForecastResults.location d) <> "")) ->
  (currentView st' = hero -> forecastData st' = None)
  /\ (currentView st' = results -> forecastData st' <> None)
  /\ (forall d, forecastData st' = Some d ->
        gt (ForecastResults.acres d) (ofZ 0) = true
        /\ gt (ForecastResults.consumption d) (ofZ 0) = true
        /\ trim (ForecastResults.location d) <> "").
Proof.
  intros Hstep [Hh [Hr Hd]]. destruct Hstep as [st Hv | st st' fd d Hv Hsub Hfs | st d Hm].
  - cbn. split; [discriminate | split; [discriminate | exact Hd]].
  - apply form_submits_valid in Hsub. destruct Hsub as [Ha [Hc Hl]].
    destruct (handleFormSubmit_Fulfilled d st st' Hfs) as [V [d2 [F [A [C L]]]]].
    rewrite V, F. split; [discriminate | split; [discriminate |]].
    intros d' [= <-]. rewrite A, C, L. auto.
  - cbn. split; [discriminate | split; [discriminate | exact Hd]].
Qed.

(** X9.  In every state the page can reach, the results view is mounted
    only with forecast data, and forecast data always have acres > 0,
    consumption > 0 and a location that is not blank; the hero view is
    only seen before any forecast. *)
Theorem reachable_page_has_valid_forecast (st : State) :
  pageReachable st ->
  (currentView st = hero -> forecastData st = None)
  /\ (currentView st = results ->
      exists d, resultsData st = Some d)
  /\ (forall d, forecastData st = Some d ->
        gt (ForecastResults.acres d) (ofZ 0) = true
        /\ gt (ForecastResults.consumption d) (ofZ 0) = true
        /\ trim (ForecastResults.location d) <> "").
Proof.
  intros R.
  assert (G : (currentView st = hero -> forecastData st = None)
              /\ (currentView st = results -> forecastData st <> None)
              /\ (forall d, forecastData st = Some d ->
                    gt (ForecastResults.acres d) (ofZ 0) = true
                    /\ gt (ForecastResults.consumption d) (ofZ 0) = true
                    /\ trim (ForecastResults.location d) <> "")).
  { induction R as [|st st' R IH Hstep].
    - cbn. split; [reflexivity | split; [discriminate | discriminate]].
    - exact (pageStep_keeps_valid_data st st' Hstep IH). }
  destruct G as [Hh [Hr Hd]]. split; [exact Hh | split; [|exact Hd]].
  intros V. unfold resultsData. rewrite V.
  destruct (forecastData st) as [d|] eqn:E; [now exists d | now destruct (Hr V)].
Qed.

Lemma reachable_page_has_valid_forecast_witness :
  let fd := {| ForecastForm.location := "Baner"; ForecastForm.acres := ofZ 5;
               ForecastForm.consumption := ofZ 500 |} in
  exists st, handleFormSubmit fd (handleGetStarted initialState) = Fulfilled st
             /\ exists d, resultsData st = Some d
                          /\ gt (ForecastResults.acres d) (ofZ 0) = true.
Proof.
  intros fd. eexists. split; [reflexivity|].
  match goal with |- exists d, resultsData ?s = _ /\ _ =>
    assert (R : pageReachable s) end.
  { eapply reach_step.
    - eapply reach_step; [exact reach_initial | now apply step_getStarted].
    - apply (step_submit _ _ fd fd); [reflexivity | right; now left | reflexivity]. }
  destruct (reachable_page_has_valid_forecast _ R) as [_ [Hr Hd]].
  destruct (Hr eq_refl) as [d Hm]. exists d. split; [exact Hm|].
  apply (Hd d). exact Hm.
Defined.

End Page.

(** ** ForecastResults: more on the flow *)

Section FlowMore.
Import ForecastResults.

Ltac unfold_run :=
  unfold runFetchPrediction, fetchPrediction, tryFinally, tryCatch, fetch,
    bind, emit, await, throw, ret, setLoading, setError, setPrediction;
  cbn [ui trace prediction loading error fst snd app negb].

(** X10.  A run starts from scratch: the state it ends in and the events
    it leaves do not depend on the state the component was in, so a
    prediction or an error of an earlier run never shows through. *)
Theorem run_forgets_previous_state
  (net : Network) (data : ForecastData) (st st' : State) :
  runFetchPrediction net data st = runFetchPrediction net data st'.
Proof. unfold_run. reflexivity. Qed.

(** X11.  A run sends at most one request: exactly one, the POST of the
    three-field body to the [/predict] URL, when acres > 0, whatever the
    network answers, and none otherwise. *)
Theorem one_request_iff_acres_positive
  (net : Network) (data : ForecastData) (st : State) :
  requestsOf (trace (runFetchPrediction net data st))
  = if gt (acres data) (ofZ 0) then [predictRequest data] else [].
Proof.
  pose proof (acres_guard (acres data)) as G.
  destruct (gt (acres data) (ofZ 0)); cbn [negb] in G.
  - now apply run_requests.
  - now rewrite (run_rejected net data st G).
Qed.

(** X12.  What the user is told when the exchange fails, for acres > 0.
    If [fetch] or the parsing of a 2xx body throws an [Error], its message
    is shown after "API Communication Error: "; if something else is
    thrown, a fixed text is shown; a 2xx body without a valid
    [predicted_kwh_month] gives the invalid-format message.  No prediction
    is stored in any of these cases. *)
Theorem failure_messages (net : Network) (data : ForecastData) (st : State) :
  gt (acres data) (ofZ 0) = true ->
  let w := runFetchPrediction net data st in
  let shown (t : Thrown) :=
    match t with
    | ErrorInstance message => ("API Communication Error: " ++ message)%string
    | OtherThrown => "An unknown error occurred connecting to the forecast service."
    end in
  (forall t, net (predictRequest data) = Rejected t ->
             error (ui w) = Some (shown t) /\ prediction (ui w) = None)
  /\ (forall r t, net (predictRequest data) = Fulfilled r -> ok r = true ->
                  json r = Rejected t ->
                  error (ui w) = Some (shown t) /\ prediction (ui w) = None)
  /\ (forall r j, net (predictRequest data) = Fulfilled r -> ok r = true ->
                  json r = Fulfilled j ->
                  (forall v, getProperty j "predicted_kwh_month" = Some (JNumber v) ->
                             isNaN v = true) ->
                  error (ui w)
                  = Some "API Communication Error: Invalid prediction format received from API."
                  /\ prediction (ui w) = None).
Proof.
  intros Ha.
  assert (G : negb (truthy (acres data)) || le (acres data) (ofZ 0) = false).
  { rewrite acres_guard, Ha. reflexivity. }
  cbv zeta. split; [|split].
  - intros t N. unfold_run. rewrite G, N. cbn [ui trace prediction loading error fst snd app].
    destruct t; split; reflexivity.
  - intros r t N Hok J. unfold_run. rewrite G, N.
    cbn [ui trace prediction loading error fst snd app]. rewrite Hok. cbn [negb].
    cbn [ui trace prediction loading error fst snd app]. rewrite J.
    destruct t; split; reflexivity.
  - intros r j N Hok J Hbad. unfold_run. rewrite G, N.
    cbn [ui trace prediction loading error fst snd app]. rewrite Hok. cbn [negb].
    cbn [ui trace prediction loading error fst snd app]. rewrite J.
    cbn [ui trace prediction loading error fst snd app].
    destruct (jsonTruthy j);
      [destruct (getProperty j "predicted_kwh_month") as [[| |n| | |]|] eqn:E|];
      try (split; reflexivity).
    rewrite (Hbad n eq_refl). split; reflexivity.
Qed.

Lemma failure_messages_witness :
  let data := {| latitude := Some (dec 185204 4); longitude := Some (dec 738567 4);
                 acres := ofZ 5; consumption := ofZ 500; location := "Pune" |} in
  error (ui (runFetchPrediction (fun _ => Rejected (ErrorInstance "Failed to fetch"))
               data initialState))
  = Some "API Communication Error: Failed to fetch".
Proof.
  intros data.
  apply (proj1 (failure_messages (fun _ => Rejected (ErrorInstance "Failed to fetch"))
                  data initialState eq_refl) (ErrorInstance "Failed to fetch")).
  reflexivity.
Defined.

(** X13.  When a run is over the skeleton is gone and exactly one of the
    two panels is rendered: the error card, or the results, which then
    have a prediction to show. *)
Theorem exactly_one_panel_after_run
  (net : Network) (data : ForecastData) (st0 : State) :
  let st := ui (runFetchPrediction net data st0) in
  loadingDisplayed st = false
  /\ errorDisplayed st = negb (resultsDisplayed st)
  /\ (resultsDisplayed st = true -> exists p, prediction st = Some p).
Proof.
  cbv zeta. unfold loadingDisplayed, errorDisplayed, resultsDisplayed.
  destruct (negb (truthy (acres data)) || le (acres data) (ofZ 0)) eqn:G.
  - rewrite (run_rejected net data st0 G). cbn. repeat split. discriminate.
  - unfold_run. rewrite G.
    destruct (net (predictRequest data)) as [r|t];
      cbn [ui trace prediction loading error fst snd app].
    + destruct (ok r); cbn [negb ui trace prediction loading error fst snd app].
      * destruct (json r) as [j|t];
          cbn [ui trace prediction loading error fst snd app].
        -- destruct (if jsonTruthy j then getProperty j "predicted_kwh_month" else None)
             as [[| |n| | |]|]; [ | | destruct (isNaN n) | | | | ];
             cbn; repeat split; try discriminate; eauto.
        -- destruct t; cbn; repeat split; discriminate.
      * destruct (text r); cbn; repeat split; discriminate.
    + destruct t; cbn; repeat split; discriminate.
Qed.

(** X14.  A prediction that a run stores is never NaN, it is the output
    the figures are computed from, and the error state is clear beside
    it. *)
Theorem stored_prediction_is_a_number
  (net : Network) (data : ForecastData) (st : State) (p : number) :
  prediction (ui (runFetchPrediction net data st)) = Some p ->
  isNaN p = false
  /\ actualOutput (ui (runFetchPrediction net data st)) = p
  /\ error (ui (runFetchPrediction net data st)) = None.
Proof.
  intros H. split; [exact (stored_prediction_not_NaN net data st p H)|].
  split; [unfold actualOutput; now rewrite H|].
  destruct (negb (truthy (acres data)) || le (acres data) (ofZ 0)) eqn:G.
  - rewrite (run_rejected net data st G) in H. discriminate H.
  - destruct (net (predictRequest data)) as [r|t] eqn:N.
    + destruct (run_answered net data st r G N) as [HP [_ [HE _]]].
      apply HE. rewrite <- HP, H. discriminate.
    + destruct (run_unanswered net data st t G N) as [HP _].
      rewrite HP in H. discriminate H.
Qed.

Lemma stored_prediction_is_a_number_witness :
  let data := {| latitude := Some (dec 185204 4); longitude := Some (dec 738567 4);
                 acres := ofZ 5; consumption := ofZ 500; location := "Pune" |} in
  let r := {| status := 200; statusText := "OK"; text := Fulfilled "";
              json := Fulfilled (JObject [("predicted_kwh_month", JNumber (dec 30405 1))]) |} in
  let w := runFetchPrediction (fun _ => Fulfilled r) data initialState in
  isNaN (dec 30405 1) = false
  /\ actualOutput (ui w) = dec 30405 1
  /\ error (ui w) = None.
Proof.
  intros data r w.
  apply (stored_prediction_is_a_number (fun _ => Fulfilled r) data initialState).
  reflexivity.
Defined.

(** X15.  When the location resolves to an entry of the table and the
    acres are finite, a submitted forecast sends one request, whose body
    has exactly the properties latitude, longitude and acres, in this
    order, holding the entry's coordinates and the form's acres;
    consumption and location are not sent. *)
Theorem resolved_forecast_sends_three_fields
  (net : Network) (fd : ForecastForm.FormInputData) (st0 : Index.State)
  (c : Index.Coords) :
  Index.getCoordsFromLocationString (ForecastForm.location fd) = Index.Entry c ->
  gt (ForecastForm.acres fd) (ofZ 0) = true ->
  isFinite (ForecastForm.acres fd) = true ->
  exists w, Index.submitForecast net fd st0 = Some w
            /\ map body (requestsOf (trace w))
               = [ JObject [ ("latitude", JNumber (Index.lat c));
                             ("longitude", JNumber (Index.lon c));
                             ("acres", JNumber (ForecastForm.acres fd)) ] ].
Proof.
  intros Hc Ha Hf.
  destruct (request_body_of_resolved_forecast net fd st0 c Hc Ha Hf) as [w [E R]].
  exists w. split; [exact E|]. rewrite R. reflexivity.
Qed.

Lemma resolved_forecast_sends_three_fields_witness :
  let fd := {| ForecastForm.location := "Kothrud, Pune"; ForecastForm.acres := dec 25 1;
               ForecastForm.consumption := ofZ 500 |} in
  exists w, Index.submitForecast (fun _ => Rejected OtherThrown) fd Index.initialState
            = Some w
            /\ map body (requestsOf (trace w))
               = [ JObject [ ("latitude", JNumber (dec 185204 4));
                             ("longitude", JNumber (dec 738567 4));
                             ("acres", JNumber (dec 25 1)) ] ].
Proof.
  intros fd.
  apply (resolved_forecast_sends_three_fields (fun _ => Rejected OtherThrown) fd
           Index.initialState puneCoords); reflexivity.
Defined.

(** X16.  Whatever the form submits reaches the endpoint: for data handed
    to [onSubmit], the page mounts the results view and its run sends
    exactly one request; the invalid-acres rejection of the flow is never
    the outcome. *)
Theorem form_submission_always_requests
  (net : Network) (formData d : ForecastForm.FormInputData) (st : Index.State) :
  In (ForecastForm.OnSubmit d) (ForecastForm.handleSubmit formData) ->
  exists w rq, Index.submitForecast net d st = Some w
               /\ requestsOf (trace w) = [rq]
               /\ url rq = "http://127.0.0.1:5000/predict"
               /\ method rq = "POST"
               /\ error (ui w) <> Some "Invalid input: Acres must be a positive number.".
Proof.
  intros Hsub. apply form_submits_valid in Hsub. destruct Hsub as [Ha _].
  destruct (handleFormSubmit_total d st) as [st' E].
  destruct (handleFormSubmit_Fulfilled d st st' E) as [V [fr [F [A _]]]].
  assert (M : Index.resultsData st' = Some fr).
  { unfold Index.resultsData. now rewrite V. }
  unfold Index.submitForecast. rewrite E, M.
  assert (Ha' : gt (acres fr) (ofZ 0) = true) by now rewrite A.
  assert (G : negb (truthy (acres fr)) || le (acres fr) (ofZ 0) = false).
  { rewrite acres_guard, Ha'. reflexivity. }
  eexists. exists (predictRequest fr). split; [reflexivity|].
  split; [now apply run_requests|]. split; [reflexivity|]. split; [reflexivity|].
  destruct (net (predictRequest fr)) as [r|t] eqn:N.
  - destruct (run_answered net fr initialState r G N) as [_ [_ [HE HS]]].
    destruct (ok r) eqn:Hok.
    + unfold_run. rewrite G, N. cbn [ui trace prediction loading error fst snd app].
      rewrite Hok. cbn [negb ui trace prediction loading error fst snd app].
      destruct (json r) as [j|t]; cbn [ui trace prediction loading error fst snd app].
      * destruct (if jsonTruthy j then getProperty j "predicted_kwh_month" else None)
          as [[| |n| | |]|]; [ | | destruct (isNaN n) | | | | ]; cbn; discriminate.
      * destruct t; cbn; discriminate.
    + rewrite (HS eq_refl). discriminate.
  - unfold_run. rewrite G, N. cbn [ui trace prediction loading error fst snd app].
    destruct t; discriminate.
Qed.

Lemma form_submission_always_requests_witness :
  let fd := {| ForecastForm.location := "constructor"; ForecastForm.acres := ofZ 5;
               ForecastForm.consumption := ofZ 500 |} in
  exists w rq, Index.submitForecast (fun _ => Rejected OtherThrown) fd Index.initialState
               = Some w
               /\ requestsOf (trace w) = [rq]
               /\ url rq = "http://127.0.0.1:5000/predict"
               /\ method rq = "POST"
               /\ error (ui w) <> Some "Invalid input: Acres must be a positive number.".
Proof.
  intros fd.
  apply (form_submission_always_requests (fun _ => Rejected OtherThrown) fd fd).
  right. now left.
Defined.

End FlowMore.

(** ** Numbers: signs *)

Section SignFacts.

Lemma binary_round_aux_signed (sx : bool) (mx ex : Z) (lx : location) :
  0 <= mx -> signed sx (binary_round_aux prec emax sx mx ex lx).
Proof.
  intros H. unfold binary_round_aux.
  pose proof (shr_fexp_nonneg mx ex lx H) as H1.
  destruct (shr_fexp prec emax mx ex lx) as [mrs' e']. simpl in H1.
  pose proof (shr_fexp_nonneg
                (round_nearest_even (shr_m mrs') (loc_of_shr_record mrs')) e'
                loc_Exact (round_nearest_even_nonneg _ _ H1)) as H2.
  destruct (shr_fexp prec emax _ e' loc_Exact) as [mrs'' e'']. simpl in H2.
  destruct (shr_m mrs'') as [|p|p].
  - reflexivity.
  - destruct (e'' <=? emax - prec); reflexivity.
  - lia.
Qed.

Lemma ofZ_signed (z : Z) : signed (z <? 0) (ofZ z).
Proof.
  unfold ofZ, binary_normalize, binary_round.
  destruct z as [|p|p]; [reflexivity| |];
    destruct (shl_align _ _ _) as [mz ez]; apply binary_round_aux_signed; lia.
Qed.


Lemma signed_true_nonPositive (x : number) : signed true x -> nonPositive x = true.
Proof. destruct x as [s|s| |s m e]; cbn; intros H; subst; try reflexivity; contradiction. Qed.


Lemma nonPositive_cases (x : number) :
  nonPositive x = true -> (exists s, x = S754_zero s) \/ signed true x.
Proof.
  destruct x as [s|[]| |[] m e]; cbn; intros H; try discriminate H;
    first [left; eexists; reflexivity | right; reflexivity].
Qed.


Lemma zero_nonNegative (s : bool) : nonNegative (S754_zero s) = true.
Proof. reflexivity. Qed.

Lemma zero_nonPositive (s : bool) : nonPositive (S754_zero s) = true.
Proof. reflexivity. Qed.

(** A positive finite Number, such as the constants of the program. *)
Lemma positive_finite (y : number) :
  gt y (ofZ 0) = true -> isFinite y = true -> exists m e, y = S754_finite false m e.
Proof.
  destruct y as [s|s| |[] m e]; cbn; intros H F; try discriminate; eauto.
Qed.

Lemma mul_positive_not_NaN (x y : number) :
  isNaN x = false -> gt y (ofZ 0) = true -> isFinite y = true ->
  isNaN (mul x y) = false.
Proof.
  intros Hx Hy Fy. destruct (positive_finite y Hy Fy) as [m [e ->]].
  now apply mul_finite_not_NaN.
Qed.


Lemma mul_positive_nonPositive (x y : number) :
  nonPositive x = true -> gt y (ofZ 0) = true -> isFinite y = true ->
  nonPositive (mul x y) = true.
Proof.
  intros Hx Hy Fy. destruct (positive_finite y Hy Fy) as [m [e ->]].
  destruct (nonPositive_cases x Hx) as [[s ->]|Hs].
  - reflexivity.
  - apply signed_true_nonPositive.
    destruct x as [s|s| |s mx ex]; cbn in Hs; try contradiction; subst.
    + reflexivity.
    + reflexivity.
    + apply (binary_round_aux_signed true). lia.
Qed.

Lemma div_positive_nonPositive (x y : number) :
  nonPositive x = true -> gt y (ofZ 0) = true ->
  (y = Infinity -> isFinite x = true) ->
  nonPositive (div x y) = true.
Proof.
  intros Hx Hy Hinf.
  destruct y as [sy|[]| |[] my ey]; try discriminate Hy.
  - specialize (Hinf eq_refl).
    destruct x as [s|s| |s mx ex]; try discriminate Hinf.
    + reflexivity.
    + destruct (nonPositive_cases _ Hx) as [[s' E]|Hs]; [discriminate E|].
      cbn in Hs. subst. reflexivity.
  - destruct (nonPositive_cases x Hx) as [[s ->]|Hs].
    + reflexivity.
    + apply signed_true_nonPositive.
      destruct x as [s|s| |s mx ex]; cbn in Hs; try contradiction; subst.
      * reflexivity.
      * reflexivity.
      * unfold div, SFdiv.
        pose proof (SFdiv_core_binary_nonneg mx my ex ey) as Hq.
        destruct (SFdiv_core_binary prec emax (Z.pos mx) ex (Z.pos my) ey)
          as [[mz ez] lz].
        apply (binary_round_aux_signed true). exact Hq.
Qed.

Lemma MathRound_nonPositive (x : number) :
  nonPositive x = true -> nonPositive (MathRound x) = true.
Proof.
  intros Hx. destruct (nonPositive_cases x Hx) as [[s ->]|Hs]; [reflexivity|].
  destruct x as [s|s| |s m e]; cbn in Hs; try contradiction; subst; try exact Hx.
  unfold MathRound. destruct (0 <=? e) eqn:He; [exact Hx|].
  apply Z.leb_gt in He. cbn [cond_Zopp].
  assert (Hn : (2 * - Z.pos m + 2 ^ (- e)) / 2 ^ (- e + 1) <= 0).
  { assert (P : 0 < 2 ^ (- e)) by (apply Z.pow_pos_nonneg; lia).
    assert (E2 : 2 ^ (- e + 1) = 2 * 2 ^ (- e)) by (rewrite Z.pow_add_r by lia; lia).
    assert (L : (2 * - Z.pos m + 2 ^ (- e)) / 2 ^ (- e + 1) < 1).
    { apply Z.div_lt_upper_bound; lia. }
    lia. }
  destruct ((2 * - Z.pos m + 2 ^ (- e)) / 2 ^ (- e + 1)) as [|p|p] eqn:E.
  - reflexivity.
  - lia.
  - apply signed_true_nonPositive. exact (ofZ_signed (Z.neg p)).
Qed.

(** [Math.max(0, r)] is +0 for every [r] that is zero or below. *)
Lemma MathMax_0_nonPositive (r : number) :
  nonPositive r = true -> MathMax (ofZ 0) r = ofZ 0.
Proof.
  intros Hr. destruct (nonPositive_cases r Hr) as [[s ->]|Hs]; [reflexivity|].
  destruct r as [s|s| |s m e]; cbn in Hs; try contradiction; subst; reflexivity.
Qed.

Lemma MathMin_100_nonPositive (r : number) :
  nonPositive r = true -> MathMin (ofZ 100) r = r.
Proof.
  intros Hr. destruct (nonPositive_cases r Hr) as [[s ->]|Hs]; [reflexivity|].
  destruct r as [s|s| |s m e]; cbn in Hs; try contradiction; subst; reflexivity.
Qed.

(** [Math.max(0, r)] is zero or above for every [r] but NaN. *)
Lemma MathMax_0_nonNegative (r : number) :
  isNaN r = false -> nonNegative (MathMax (ofZ 0) r) = true.
Proof.
  intros Hr. unfold MathMax, nonNegative, le, SFleb.
  destruct (SFcompare (ofZ 0) r) as [[| |]|] eqn:C.
  - destruct r as [s|[]| |[] m e]; try discriminate C. reflexivity.
  - now rewrite C.
  - reflexivity.
  - destruct r; try discriminate Hr; discriminate C.
Qed.



End SignFacts.

(** ** ForecastResults: the figures derived from the prediction *)

Section Figures.
Import ForecastResults.

Variable monthShort : nat -> string.

Lemma factors_positive_finite :
  Forall (fun f => gt f (ofZ 0) = true /\ isFinite f = true) factors.
Proof. repeat constructor. Qed.

Lemma mapIndexed_length {A B : Type} (f : A -> nat -> B) (i : nat) (xs : list A) :
  List.length (mapIndexed f i xs) = List.length xs.
Proof.
  revert i. induction xs as [|x xs IH]; intros i; simpl; [reflexivity|].
  now rewrite IH.
Qed.

Lemma mapIndexed_Forall {A B : Type} (P : A -> Prop) (Q : B -> Prop)
  (f : A -> nat -> B) (xs : list A) :
  (forall x i, P x -> Q (f x i)) ->
  Forall P xs -> forall i, Forall Q (mapIndexed f i xs).
Proof.
  intros H F. induction F as [|x xs Hx F IH]; intros i; simpl; constructor; auto.
Qed.

Lemma mapIndexed_map_seq {A B : Type} (g : nat -> B) (i : nat) (xs : list A) :
  mapIndexed (fun _ index => g index) i xs = map g (seq i (List.length xs)).
Proof.
  revert i. induction xs as [|x xs IH]; intros i; simpl; [reflexivity|].
  now rewrite IH.
Qed.

Lemma actualOutput_after_run (net : Network) (data : ForecastData) (st0 : State) :
  isNaN (actualOutput (ui (runFetchPrediction net data st0))) = false.
Proof.
  unfold actualOutput.
  destruct (prediction (ui (runFetchPrediction net data st0))) as [p|] eqn:E.
  - exact (stored_prediction_not_NaN net data st0 p E).
  - reflexivity.
Qed.

(** X17.  After any run the chart data have twelve rows, one per month, in
    calendar order; every row's generation is a Number that is zero or
    above, never negative and never NaN, even when the stored prediction is
    negative, and every row carries the form's consumption. *)
Theorem monthlyData_rows (net : Network) (data : ForecastData) (st0 : State) :
  let rows := monthlyData monthShort data (ui (runFetchPrediction net data st0)) in
  List.length rows = 12%nat
  /\ map row_month rows = map monthShort (seq 0 12)
  /\ Forall (fun r => nonNegative (row_generation r) = true
                      /\ row_consumption r = consumption data) rows.
Proof.
  cbv zeta. unfold monthlyData. split; [|split].
  - now rewrite mapIndexed_length.
  - reflexivity.
  - apply (mapIndexed_Forall
             (fun f => gt f (ofZ 0) = true /\ isFinite f = true));
      [|exact factors_positive_finite].
    intros f i [Hf Ff]. cbn [row_generation row_consumption]. split; [|reflexivity].
    apply MathMax_0_nonNegative, MathRound_not_NaN, mul_positive_not_NaN; auto.
    apply actualOutput_after_run.
Qed.



(** X19.  A prediction that is zero or below (the endpoint's answer is
    accepted whatever its sign) shows as 0 % coverage and as a generation
    of 0 in every month, provided prediction and consumption are not both
    infinite. *)
Theorem nonpositive_prediction_shows_zero (data : ForecastData) (st : State) :
  nonPositive (actualOutput st) = true ->
  (consumption data = Infinity -> isFinite (actualOutput st) = true) ->
  coveragePercent data st = ofZ 0
  /\ Forall (fun r => row_generation r = ofZ 0) (monthlyData monthShort data st).
Proof.
  intros Ha Hinf. split.
  - unfold coveragePercent.
    destruct (gt (consumption data) (ofZ 0)) eqn:Hc; [|reflexivity].
    assert (R : nonPositive (MathRound (mul (div (actualOutput st) (consumption data))
                                            (ofZ 100))) = true).
    { apply MathRound_nonPositive, mul_positive_nonPositive; try reflexivity.
      now apply div_positive_nonPositive. }
    rewrite (MathMin_100_nonPositive _ R). now apply MathMax_0_nonPositive.
  - unfold monthlyData.
    apply (mapIndexed_Forall
             (fun f => gt f (ofZ 0) = true /\ isFinite f = true));
      [|exact factors_positive_finite].
    intros f i [Hf Ff]. cbn [row_generation].
    apply MathMax_0_nonPositive, MathRound_nonPositive.
    now apply mul_positive_nonPositive.
Qed.

End Figures.

Lemma nonpositive_prediction_shows_zero_witness :
  let data := {| ForecastResults.latitude := Some (dec 185204 4);
                 ForecastResults.longitude := Some (dec 738567 4);
                 ForecastResults.acres := ofZ 5;
                 ForecastResults.consumption := ofZ 4000;
                 ForecastResults.location := "Pune" |} in
  let st := {| ForecastResults.prediction := Some (dec (-1205) 1);
               ForecastResults.loading := false; ForecastResults.error := None |} in
  ForecastResults.coveragePercent data st = ofZ 0
  /\ Forall (fun r => ForecastResults.row_generation r = ofZ 0)
            (ForecastResults.monthlyData (fun _ => "") data st).
Proof.
  intros data st.
  apply (nonpositive_prediction_shows_zero (fun _ => "") data st).
  - reflexivity.
  - discriminate.
Defined.
